(** * vcluster CLI: platform registration (add vcluster) and platform backup

    A shallow embedding of
      - [AddVClusterHelm], [addVClusterHelm] and [VClusterAddError]
        (package cli), and
      - [BackupCmd.run] (package platform, cmd/vclusterctl/cmd/platform/backup.go)
    together with theorems about their error aggregation, the order of their
    side effects and their results.

    Both Go functions are orchestration code: almost every statement is a
    call to a collaborator (the kube client, the prompt, the logger, the
    file system).  A Go function is therefore embedded as a finite tree of
    such calls ([prog]); an environment ([Env]) answers each call and may
    keep state between calls; [run] executes a tree against an environment
    and records every call with its answer in a trace. *)

From Stdlib Require Import String Ascii List Bool Arith NArith Lia.
From Stdlib Require Import DecimalString.
Import ListNotations.
Open Scope list_scope.
Open Scope string_scope.

(** ** Go errors *)

(** The dynamic error values the two files create or pass along:
    [errors.New] builds an [errorString]; [fmt.Errorf] with a [%w] verb
    builds a [wrapError] holding the formatted message and the wrapped
    error; [context.DeadlineExceeded] is what a timed-out poll returns.
    Errors produced by collaborators are values of the same type. *)
Inductive error : Type :=
| errorString (s : string)
| wrapError (msg : string) (err : error)
| deadlineExceededError.

(** [err.Error()] *)
Definition Error (e : error) : string :=
  match e with
  | errorString s => s
  | wrapError msg _ => msg
  | deadlineExceededError => "context deadline exceeded"
  end.

(** [errors.Unwrap(err)] *)
Definition Unwrap (e : error) : option error :=
  match e with
  | wrapError _ err => Some err
  | _ => None
  end.

(** [fmt.Errorf(pre + "%w" + post, err)]: the message is the format with
    [err.Error()] substituted, and [err] is kept as the wrapped error. *)
Definition Errorf_w (pre : string) (err : error) (post : string) : error :=
  wrapError (pre ++ Error err ++ post) err.

(** A Go [(T, error)] pair, read the way the callers read it: the value is
    looked at only when the error is nil. *)
Definition result (T : Type) : Type := (error + T)%type.

(** [%d] of [fmt] for a length. *)
Definition fmt_d (n : nat) : string := NilZero.string_of_uint (Nat.to_uint n).

(** ** Data of the two packages *)

(** Values owned by collaborators; the code only passes them on. *)
Record RestConfig := { restConfigId : nat }.
Record Clientset := { clientsetId : nat }.
Record ClientConfig := { clientConfigId : nat }.
Record CLIConfig := { cliConfigId : nat }.
Record RuntimeClient := { runtimeClientId : nat }.
Record Object := { objectKind : string; objectPayload : string }.

(** [flags.GlobalFlags], the two fields read directly. *)
Record GlobalFlags := { flags_Context : string; flags_Namespace : string }.

(** [find.VCluster]. *)
(** Modelled from the spec: the fields of [find.VCluster] that
    [lifecycle.IsPaused] inspects are not under src/; the spec gives an
    instance "a derived suspended/active status", kept here as the field
    [Suspended]. *)
Record VCluster := {
  Name : string;
  Namespace : string;
  ClientFactory : ClientConfig;
  Suspended : bool
}.

(** Modelled from the spec: [lifecycle.IsPaused], the status query of an
    already discovered instance. *)
Definition IsPaused (vCluster : VCluster) : bool := Suspended vCluster.

(** [survey.QuestionOptions] *)
Record QuestionOptions := {
  Question : string;
  DefaultValue : string;
  Options : list string
}.

Record AddVClusterOptions := {
  Project : string;
  ImportName : string;
  Restart : bool;
  Insecure : bool;
  AccessKey : string;
  Host : string;
  CertificateAuthorityData : list Byte.byte;
  All : bool
}.

(** ** Calls to collaborators *)

(** Every function the two files call outside themselves is a call: the
    logger and its prompt, client-go, the file system, and the functions of
    the repository that are not under src/ ([find.ListVClusters],
    [find.GetVCluster], [ResumeHelm], [LoadedConfig],
    [platform.ApplyPlatformSecret], [lifecycle.DeletePods],
    [clihelper.Timeout], [clihelper.IsLoftAlreadyInstalled], [backup.All],
    [backup.ToYAML]).  Nothing is assumed about their answers. *)

Inductive level := DebugLevel | InfoLevel | WarnLevel | DoneLevel.

Inductive call : Type :=
(* log.Logger *)
| Log (lvl : level) (msg : string)
| AskQuestion (q : QuestionOptions)
(* clientcmd / client-go *)
| HostClientConfig (currentContext : string)
| FactoryClientConfig (factory : ClientConfig)
| NewForConfig (cfg : RestConfig)
| NamespacesList (c : Clientset)
(* find *)
| ListVClusters (context name namespace : string)
| GetVCluster (context name namespace : string)
(* lifecycle / platform *)
| ResumeHelm (globalFlags : GlobalFlags) (vClusterName : string)
| LoadedConfig (globalFlags : GlobalFlags)
| ApplyPlatformSecret (cfg : CLIConfig) (c : Clientset)
    (importName namespace project accessKey host : string)
    (insecure : bool) (ca : list Byte.byte)
| DeletePods (c : Clientset) (labelSelector namespace : string)
| Timeout
(* backup *)
| NewClientFromConfig
| IsLoftAlreadyInstalled (c : Clientset) (namespace : string)
| NewRuntimeClient (cfg : RestConfig)
| BackupAll (c : RuntimeClient) (skip : list string)
| ToYAML (objects : list Object)
| WriteFile (name : string) (data : list Byte.byte) (perm : N).

(** What each call gives back. [clihelper.Timeout()] is given in whole
    seconds, the poll interval of the code. [BackupAll] also gives the lines
    it passed to its progress callback. *)
Definition resp (c : call) : Type :=
  match c with
  | Log _ _ => unit
  | AskQuestion _ => result string
  | HostClientConfig _ => result RestConfig
  | FactoryClientConfig _ => result RestConfig
  | NewForConfig _ => result Clientset
  | NamespacesList _ => result (list string)
  | ListVClusters _ _ _ => result (list VCluster)
  | GetVCluster _ _ _ => result VCluster
  | ResumeHelm _ _ => option error
  | LoadedConfig _ => CLIConfig
  | ApplyPlatformSecret _ _ _ _ _ _ _ _ _ => option error
  | DeletePods _ _ _ => option error
  | Timeout => nat
  | NewClientFromConfig => option error
  | IsLoftAlreadyInstalled _ _ => result bool
  | NewRuntimeClient _ => result RuntimeClient
  | BackupAll _ _ => (list Object * list error * list string)%type
  | ToYAML _ => result (list Byte.byte)
  | WriteFile _ _ _ => option error
  end.

(** A call together with its answer. *)
Inductive event : Type := Ev (c : call) (r : resp c).

(** ** Programs and their execution *)

Inductive prog (A : Type) : Type :=
| Ret (a : A)
| Call (c : call) (k : resp c -> prog A).

Arguments Ret {A} a.
Arguments Call {A} c k.

Fixpoint bind {A B} (p : prog A) (f : A -> prog B) : prog B :=
  match p with
  | Ret a => f a
  | Call c k => Call c (fun r => bind (k r) f)
  end.

Definition perform (c : call) : prog (resp c) := Call c Ret.

Declare Scope prog_scope.
Delimit Scope prog_scope with prog.
Notation "x <- p ;; q" := (bind p (fun x => q))
  (at level 100, p at next level, right associativity) : prog_scope.
Notation "p ;; q" := (bind p (fun _ => q))
  (at level 100, right associativity) : prog_scope.
Open Scope prog_scope.

(** An environment: a state and, for every call, an answer and a next
    state. *)
Record Env := {
  World : Type;
  handle : forall c : call, World -> resp c * World
}.

Record Run (W A : Type) := {
  value : A;
  world : W;
  trace : list event
}.

Arguments Build_Run {W A} value world trace.
Arguments value {W A} r.
Arguments world {W A} r.
Arguments trace {W A} r.

Fixpoint run (E : Env) {A} (p : prog A) (w : World E) : Run (World E) A :=
  match p with
  | Ret a => {| value := a; world := w; trace := [] |}
  | Call c k =>
      let (r, w') := handle E c w in
      let o := run E (k r) w' in
      {| value := value o; world := world o; trace := Ev c r :: trace o |}
  end.

(** ** Package cli: AddVClusterHelm *)

Module cli.

(** [log.Debugf], [log.Infof], [log.Donef] with the message formatted. *)
Definition Debugf (msg : string) : prog unit := perform (Log DebugLevel msg).
Definition Infof (msg : string) : prog unit := perform (Log InfoLevel msg).
Definition Donef (msg : string) : prog unit := perform (Log DoneLevel msg).

(** [type VClusterAddError struct { errs []error }] *)
Definition VClusterAddError := list error.

(** [func (vce *VClusterAddError) CombinedError() error] *)
Definition CombinedError (errs : VClusterAddError) : option error :=
  match errs with
  | [] => None
  | [err] => Some err
  | _ =>
      let errMsg :=
        fold_left (fun b err => b ++ (Error err ++ "|")) errs "" in
      Some (errorString errMsg)
  end.

(** [func (vce *VClusterAddError) addErr(vClusterName string, err error)];
    the receiver is updated in place, here the new value is returned. *)
Definition addErr (errs : VClusterAddError) (vClusterName : string)
    (err : option error) : VClusterAddError :=
  match err with
  | None => errs
  | Some err =>
      (errs ++ [Errorf_w ("cannot add vcluster " ++ vClusterName ++ ": ") err ""])%list
  end.

(** Collaborators, with the types the code sees. *)
Definition log_Question (q : QuestionOptions) : prog (result string) :=
  perform (AskQuestion q).
Definition find_ListVClusters (context name namespace : string)
  : prog (result (list VCluster)) :=
  perform (ListVClusters context name namespace).
Definition find_GetVCluster (context name namespace : string)
  : prog (result VCluster) :=
  perform (GetVCluster context name namespace).
Definition kubernetes_NewForConfig (cfg : RestConfig) : prog (result Clientset) :=
  perform (NewForConfig cfg).
Definition platform_ApplyPlatformSecret (cfg : CLIConfig) (c : Clientset)
    (importName namespace project accessKey host : string)
    (insecure : bool) (ca : list Byte.byte) : prog (option error) :=
  perform (ApplyPlatformSecret cfg c importName namespace project accessKey
             host insecure ca).
Definition lifecycle_DeletePods (c : Clientset) (labelSelector namespace : string)
  : prog (option error) :=
  perform (DeletePods c labelSelector namespace).
Definition clihelper_Timeout : prog nat := perform Timeout.

(** Modelled from the spec: [wait.PollUntilContextTimeout] with interval
    [time.Second] and [immediate = false] is not under src/; the spec has it
    "poll status at a fixed interval (1 time unit) until status reports
    not-suspended, or until an overall timeout elapses".  [ticks] is the
    number of intervals left before the timeout; the body of the match is
    the condition closure of lines 165-172, which stores every instance it
    fetches in the variable [vCluster] of the enclosing function. *)
Fixpoint pollUntilAwake (ticks : nat) (globalFlags : GlobalFlags)
    (vClusterName : string) : prog (result VCluster) :=
  match ticks with
  | O => Ret (inl deadlineExceededError)
  | S ticks' =>
      r <- find_GetVCluster (flags_Context globalFlags) vClusterName
             (flags_Namespace globalFlags) ;;
      match r with
      | inl err => Ret (inl err)
      | inr vCluster =>
          if negb (IsPaused vCluster) then Ret (inr vCluster)
          else pollUntilAwake ticks' globalFlags vClusterName
      end
  end.

Definition snoozeConfirmation : string :=
  "No. Leave it sleeping. (It will be added automatically on next wakeup)".

(** The question of lines 148-155. *)
Definition wakeQuestion (vCluster : VCluster) : QuestionOptions := {|
  Question := "Would you like to wake vCluster " ++ Name vCluster ++
              " now to add immediately?";
  DefaultValue := snoozeConfirmation;
  Options := [snoozeConfirmation; "Yes. Wake and add now."] |}.

(** The notice of line 145. *)
Definition sleepingNotice (vCluster : VCluster) : string :=
  "vCluster " ++ Name vCluster ++
  " is currently sleeping. It will not be added to the platform until it wakes again.".

(** [addVClusterHelm], lines 161-176: the wake-up and the wait for it.
    Gives the instance the last poll fetched, or the error returned. *)
Definition wakeAndWait (globalFlags : GlobalFlags) (vClusterName : string)
  : prog (result VCluster) :=
  err <- perform (ResumeHelm globalFlags vClusterName) ;;
  match err with
  | Some err =>
      Ret (inl (Errorf_w ("failed to wake up vCluster " ++ vClusterName ++ ": ")
                  err ""))
  | None =>
      timeout <- clihelper_Timeout ;;
      r <- pollUntilAwake timeout globalFlags vClusterName ;;
      match r with
      | inl err =>
          Ret (inl (Errorf_w "error waiting for vCluster to wake up " err ""))
      | inr vCluster => Ret (inr vCluster)
      end
  end.

(** [addVClusterHelm], lines 141-178: the sleeping instance. Gives the
    values of [snoozed] and [vCluster] at line 179, or the error returned
    before. *)
Definition wakeIfPaused (globalFlags : GlobalFlags) (vClusterName : string)
    (vCluster : VCluster) : prog (result (bool * VCluster)) :=
  if IsPaused vCluster then
    Infof (sleepingNotice vCluster) ;;
    r <- log_Question (wakeQuestion vCluster) ;;
    match r with
    | inl err => Ret (inl (Errorf_w "failed to capture your response " err ""))
    | inr answer =>
        let snoozed := String.eqb answer snoozeConfirmation in
        if negb snoozed then
          r <- wakeAndWait globalFlags vClusterName ;;
          match r with
          | inl err => Ret (inl err)
          | inr vCluster => Ret (inr (snoozed, vCluster))
          end
        else Ret (inr (snoozed, vCluster))
    end
  else Ret (inr (false, vCluster)).

(** [addVClusterHelm], lines 205-211. *)
Definition reportAdded (snoozed : bool) (vCluster : VCluster) : prog (option error) :=
  if snoozed then
    Infof ("vCluster " ++ Namespace vCluster ++ "/" ++ Name vCluster ++
           " will be added the next time it awakes") ;;
    Donef ("Run 'vcluster wakeup --help' to learn how to wake up vCluster " ++
           Namespace vCluster ++ "/" ++ Name vCluster ++
           " to complete the add operation.") ;;
    Ret None
  else
    Donef ("Successfully added vCluster " ++ Namespace vCluster ++ "/" ++
           Name vCluster) ;;
    Ret None.

(** [addVClusterHelm], lines 180-211: the platform secret, then the
    restart. *)
Definition applyAndRestart (options : AddVClusterOptions)
    (globalFlags : GlobalFlags) (kubeClient : Clientset)
    (snoozed : bool) (vCluster : VCluster) : prog (option error) :=
  cfg <- perform (LoadedConfig globalFlags) ;;
  err <- platform_ApplyPlatformSecret cfg kubeClient (ImportName options)
           (Namespace vCluster) (Project options) (AccessKey options)
           (Host options) (Insecure options)
           (CertificateAuthorityData options) ;;
  match err with
  | Some err => Ret (Some err)
  | None =>
      if Restart options then
        err <- lifecycle_DeletePods kubeClient
                 ("app=vcluster,release=" ++ Name vCluster) (Namespace vCluster) ;;
        match err with
        | Some err => Ret (Some (Errorf_w "delete vcluster workloads: " err ""))
        | None => reportAdded snoozed vCluster
        end
      else reportAdded snoozed vCluster
  end.

(** [func addVClusterHelm(ctx, options, globalFlags, vClusterName, vCluster,
    kubeClient, log) error] *)
Definition addVClusterHelm (options : AddVClusterOptions)
    (globalFlags : GlobalFlags) (vClusterName : string) (vCluster : VCluster)
    (kubeClient : Clientset) : prog (option error) :=
  r <- wakeIfPaused globalFlags vClusterName vCluster ;;
  match r with
  | inl err => Ret (Some err)
  | inr (snoozed, vCluster) =>
      applyAndRestart options globalFlags kubeClient snoozed vCluster
  end.

(** [AddVClusterHelm], lines 62-73: the loop over the namespaces. *)
Fixpoint listInNamespaces (globalFlags : GlobalFlags) (namespaces : list string)
    (vClusters : list VCluster) : prog (result (list VCluster)) :=
  match namespaces with
  | [] => Ret (inr vClusters)
  | ns :: namespaces' =>
      Infof ("looking for a vcluster in " ++ ns ++ " namespace") ;;
      r <- find_ListVClusters (flags_Context globalFlags) "" ns ;;
      match r with
      | inl err => Ret (inl err)
      | inr vClustersInNamespace =>
          if Nat.eqb (length vClustersInNamespace) 0 then
            Infof ("no vClusters found in context " ++ flags_Context globalFlags ++
                   " and namespace " ++ ns) ;;
            listInNamespaces globalFlags namespaces' vClusters
          else
            listInNamespaces globalFlags namespaces'
              (vClusters ++ vClustersInNamespace)%list
      end
  end.

(** [AddVClusterHelm], lines 42-81: the targets. *)
Definition resolveVClusters (options : AddVClusterOptions)
    (globalFlags : GlobalFlags) (vClusterName : string)
  : prog (result (list VCluster)) :=
  if All options then
    Debugf "add vcluster called with --all flag" ;;
    r <- perform (HostClientConfig (flags_Context globalFlags)) ;;
    match r with
    | inl err => Ret (inl err)
    | inr hostClusterRestConfig =>
        r <- kubernetes_NewForConfig hostClusterRestConfig ;;
        match r with
        | inl err => Ret (inl err)
        | inr hostKubeClient =>
            r <- perform (NamespacesList hostKubeClient) ;;
            match r with
            | inl err => Ret (inl err)
            | inr namespaces =>
                Debugf ("looking for vclusters in " ++ fmt_d (length namespaces) ++
                        " namespaces") ;;
                listInNamespaces globalFlags namespaces []
            end
        end
    end
  else
    r <- find_GetVCluster (flags_Context globalFlags) vClusterName
           (flags_Namespace globalFlags) ;;
    match r with
    | inl err => Ret (inl err)
    | inr vCluster => Ret (inr [vCluster])
    end.

(** The line of line 101. *)
Definition addingNotice (vCluster : VCluster) : string :=
  "adding " ++ Name vCluster ++ " vCluster to platform".

(** [AddVClusterHelm], lines 99-103: one operation per target, every
    result handed to [addErr]. *)
Fixpoint addEach (options : AddVClusterOptions) (globalFlags : GlobalFlags)
    (kubeClient : Clientset) (vClusters : list VCluster)
    (errs : VClusterAddError) : prog VClusterAddError :=
  match vClusters with
  | [] => Ret errs
  | vCluster :: vClusters' =>
      Infof (addingNotice vCluster) ;;
      err <- addVClusterHelm options globalFlags (Name vCluster) vCluster
               kubeClient ;;
      addEach options globalFlags kubeClient vClusters'
        (addErr errs (Name vCluster) err)
  end.

(** [AddVClusterHelm], lines 83-105. *)
Definition addResolved (options : AddVClusterOptions)
    (globalFlags : GlobalFlags) (vClusters : list VCluster)
  : prog (option error) :=
  match vClusters with
  | [] => Ret None
  | first :: _ =>
      r <- perform (FactoryClientConfig (ClientFactory first)) ;;
      match r with
      | inl err => Ret (Some err)
      | inr restConfig =>
          r <- kubernetes_NewForConfig restConfig ;;
          match r with
          | inl err => Ret (Some err)
          | inr kubeClient =>
              Debugf ("trying to add " ++ fmt_d (length vClusters) ++
                      " vClusters to platform") ;;
              errs <- addEach options globalFlags kubeClient vClusters [] ;;
              Ret (CombinedError errs)
          end
      end
  end.

(** [func AddVClusterHelm(ctx, options, globalFlags, vClusterName, log) error] *)
Definition AddVClusterHelm (options : AddVClusterOptions)
    (globalFlags : GlobalFlags) (vClusterName : string) : prog (option error) :=
  r <- resolveVClusters options globalFlags vClusterName ;;
  match r with
  | inl err => Ret (Some err)
  | inr vClusters => addResolved options globalFlags vClusters
  end.

End cli.

(** ** Package platform: the backup command *)

Module platform.

(** [type BackupCmd struct], the flags the command reads. *)
Record BackupCmd := {
  Namespace : string;
  Filename : string;
  Skip : list string
}.

(** [for _, x := range xs { body(x) }] for a body without result. *)
Fixpoint forEach {T} (xs : list T) (body : T -> prog unit) : prog unit :=
  match xs with
  | [] => Ret tt
  | x :: xs' => body x ;; forEach xs' body
  end.

(** The mode [0644] handed to [os.WriteFile]: octal digits 6, 4, 4. *)
Definition mode_0644 : N := 6 * 64 + 4 * 8 + 4.

Definition kubeConfigError (err : error) : error :=
  Errorf_w "there is an error loading your current kube config (" err
    "), please make sure you have access to a kubernetes cluster and the command `kubectl get namespaces` is working".

Section Product.

(** [product.Replace] is not under src/, and [fmt.Sprintf] with a [%q]
    verb is taken as it is; the code only uses them to word the question.
    [Sprintf format arg] is the format with its one verb filled in. *)
Variable Replace : string -> string.
Variable Sprintf : string -> string -> string.

(** The question of lines 99-103. *)
Definition continueQuestion (cmd : BackupCmd) : QuestionOptions := {|
  Question :=
    Sprintf
      (Replace "Seems like vCluster platform was not installed into namespace %q, do you want to continue?")
      (Namespace cmd);
  DefaultValue := "Yes";
  Options := ["Yes"; "No"] |}.

(** [BackupCmd.run], lines 121-134: the serialization and the file. *)
Definition writeBackup (cmd : BackupCmd) (objects : list Object)
  : prog (option error) :=
  r <- perform (ToYAML objects) ;;
  match r with
  | inl err => Ret (Some err)
  | inr backupBytes =>
      perform (Log InfoLevel ("Writing backup to " ++ Filename cmd ++ "...")) ;;
      err <- perform (WriteFile (Filename cmd) backupBytes mode_0644) ;;
      match err with
      | Some err => Ret (Some err)
      | None =>
          perform (Log DoneLevel ("Wrote backup to " ++ Filename cmd)) ;;
          Ret None
      end
  end.

(** [BackupCmd.run], lines 109-134. The callback handed to [backup.All]
    logs each progress line at the info level; the lines come back with
    the answer of the call and are logged here. *)
Definition collectAndWrite (cmd : BackupCmd) (kubeConfig : RestConfig)
  : prog (option error) :=
  r <- perform (NewRuntimeClient kubeConfig) ;;
  match r with
  | inl err => Ret (Some err)
  | inr client =>
      collected <- perform (BackupAll client (Skip cmd)) ;;
      let '(objects, errors, progress) := collected in
      forEach progress (fun msg => perform (Log InfoLevel msg)) ;;
      forEach errors (fun err => perform (Log WarnLevel (Error err))) ;;
      writeBackup cmd objects
  end.

(** [func (cmd *BackupCmd) run(cobraCmd *cobra.Command) error] *)
Definition BackupCmd_run (cmd : BackupCmd) : prog (option error) :=
  r <- perform (HostClientConfig "") ;;
  match r with
  | inl err => Ret (Some (kubeConfigError err))
  | inr kubeConfig =>
      r <- perform (NewForConfig kubeConfig) ;;
      match r with
      | inl err => Ret (Some (kubeConfigError err))
      | inr kubeClient =>
          r <- perform (IsLoftAlreadyInstalled kubeClient (Namespace cmd)) ;;
          match r with
          | inl err => Ret (Some err)
          | inr isInstalled =>
              if negb isInstalled then
                r <- perform (AskQuestion (continueQuestion cmd)) ;;
                match r with
                | inl err => Ret (Some err)
                | inr answer =>
                    if negb (String.eqb answer "Yes") then Ret None
                    else collectAndWrite cmd kubeConfig
                end
              else collectAndWrite cmd kubeConfig
          end
      end
  end.

(** The [RunE] closure of [newBackupCmd], lines 62-70. *)
Definition RunE (cmd : BackupCmd) : prog (option error) :=
  err <- perform NewClientFromConfig ;;
  match err with
  | Some err => Ret (Some (Errorf_w "create vCluster platform client: " err ""))
  | None => BackupCmd_run cmd
  end.

End Product.

End platform.

(** ** Reading a trace *)

Definition callOf (ev : event) : call :=
  match ev with Ev c _ => c end.

Definition isLog (c : call) : bool :=
  match c with Log _ _ => true | _ => false end.

Definition isApplySecret (c : call) : bool :=
  match c with ApplyPlatformSecret _ _ _ _ _ _ _ _ _ => true | _ => false end.

Definition isDeletePods (c : call) : bool :=
  match c with DeletePods _ _ _ => true | _ => false end.

Definition isGetVCluster (c : call) : bool :=
  match c with GetVCluster _ _ _ => true | _ => false end.

(** The calls [AddVClusterHelm] makes on behalf of one target: the
    bootstrap connection, the prompt, the wake-up with its status poll, the
    platform secret and the pod deletion. *)
Definition perTarget (c : call) : bool :=
  match c with
  | AskQuestion _ | FactoryClientConfig _ | GetVCluster _ _ _
  | ResumeHelm _ _ | LoadedConfig _ | ApplyPlatformSecret _ _ _ _ _ _ _ _ _
  | DeletePods _ _ _ | Timeout => true
  | _ => false
  end.

(** The calls that construct a connection. *)
Definition isConnect (c : call) : bool :=
  match c with
  | HostClientConfig _ | FactoryClientConfig _ | NewForConfig _
  | NewRuntimeClient _ => true
  | _ => false
  end.

Definition Clientset_eqb (a b : Clientset) : bool :=
  Nat.eqb (clientsetId a) (clientsetId b).

(** [c] reaches the cluster through no client but [kubeClient]. *)
Definition throughClient (kubeClient : Clientset) (c : call) : bool :=
  match c with
  | ApplyPlatformSecret _ c' _ _ _ _ _ _ _ => Clientset_eqb c' kubeClient
  | DeletePods c' _ _ => Clientset_eqb c' kubeClient
  | NamespacesList c' => Clientset_eqb c' kubeClient
  | IsLoftAlreadyInstalled c' _ => Clientset_eqb c' kubeClient
  | _ => true
  end.

(** The answer of a platform secret application, when [ev] is one. *)
Definition applyAnswer (ev : event) : option (option error) :=
  match ev with
  | Ev c r =>
      match c return resp c -> option (option error) with
      | ApplyPlatformSecret _ _ _ _ _ _ _ _ _ => fun r => Some r
      | _ => fun _ => None
      end r
  end.

(** The answer of a pod deletion, when [ev] is one. *)
Definition deleteAnswer (ev : event) : option (option error) :=
  match ev with
  | Ev c r =>
      match c return resp c -> option (option error) with
      | DeletePods _ _ _ => fun r => Some r
      | _ => fun _ => None
      end r
  end.

Definition applySucceeded (ev : event) : bool :=
  match applyAnswer ev with Some None => true | _ => false end.

(** A trace cut at its first pod deletion: the events before it, the answer
    of the deletion, the events after it. *)
Fixpoint splitAtDelete (tr : list event)
  : option (list event * option error * list event) :=
  match tr with
  | [] => None
  | ev :: tr' =>
      match deleteAnswer ev with
      | Some r => Some ([], r, tr')
      | None =>
          match splitAtDelete tr' with
          | Some (before, r, after) => Some (ev :: before, r, after)
          | None => None
          end
      end
  end.

(** The message of an "adding ... vCluster to platform" line, the line
    that opens one target's turn in the batch loop. *)
Definition addingLine (ev : event) : option string :=
  match callOf ev with
  | Log InfoLevel msg => if prefix "adding " msg then Some msg else None
  | _ => None
  end.

Fixpoint filterMap {A B} (f : A -> option B) (l : list A) : list B :=
  match l with
  | [] => []
  | a :: l' =>
      match f a with
      | Some b => b :: filterMap f l'
      | None => filterMap f l'
      end
  end.

(** A status poll answered with an instance that is still suspended. *)
Definition stillSuspended (ev : event) : bool :=
  match ev with
  | Ev c r =>
      match c return resp c -> bool with
      | GetVCluster _ _ _ =>
          fun r => match r with inr vCluster => IsPaused vCluster | inl _ => false end
      | _ => fun _ => false
      end r
  end.

(** The warning lines of a trace, in order. *)
Definition warnLine (ev : event) : option string :=
  match callOf ev with
  | Log WarnLevel msg => Some msg
  | _ => None
  end.

(** The collector's answer, when [ev] is the collection. *)
Definition collectAnswer (ev : event)
  : option (list Object * list error * list string) :=
  match ev with
  | Ev c r =>
      match c return resp c -> option (list Object * list error * list string) with
      | BackupAll _ _ => fun r => Some r
      | _ => fun _ => None
      end r
  end.

(** The serializer's input and answer, when [ev] is the serialization. *)
Definition yamlAnswer (ev : event)
  : option (list Object * result (list Byte.byte)) :=
  match ev with
  | Ev c r =>
      match c return resp c -> option (list Object * result (list Byte.byte)) with
      | ToYAML objects => fun r => Some (objects, r)
      | _ => fun _ => None
      end r
  end.

(** A file write: name, data, mode and answer. *)
Definition fileWrite (ev : event)
  : option (string * list Byte.byte * N * option error) :=
  match ev with
  | Ev c r =>
      match c return resp c -> option (string * list Byte.byte * N * option error) with
      | WriteFile name data perm => fun r => Some (name, data, perm, r)
      | _ => fun _ => None
      end r
  end.

(** The calls of a program all satisfy [P], whatever the answers. *)
Fixpoint callsOnly {A} (P : call -> bool) (p : prog A) : Prop :=
  match p with
  | Ret _ => True
  | Call c k => P c = true /\ forall r, callsOnly P (k r)
  end.

(** The text the spec gives for the combined message: the messages joined
    by the separator. *)
Definition pipeJoined (errs : list error) : string :=
  String.concat "|" (map Error errs).

(** The answer an environment gives to a call in a state, and the state it
    moves to. *)
Definition answerOf (E : Env) (c : call) (w : World E) : resp c :=
  fst (handle E c w).
Definition after (E : Env) (c : call) (w : World E) : World E :=
  snd (handle E c w).

(** The calls of lines 141-178 of [addVClusterHelm]: logging, the prompt,
    the wake-up, the timeout and the status poll. *)
Definition wakePhase (c : call) : bool :=
  match c with
  | Log _ _ | AskQuestion _ | ResumeHelm _ _ | Timeout | GetVCluster _ _ _ => true
  | _ => false
  end.

(** Not the line that opens a target's turn. *)
Definition notAdding (c : call) : bool :=
  match c with
  | Log InfoLevel msg => negb (prefix "adding " msg)
  | _ => true
  end.

(** What one target's operation may call: nothing that opens another
    target's turn, nothing that constructs a connection, and the cluster
    only through [kubeClient]. *)
Definition targetCall (kubeClient : Clientset) (c : call) : bool :=
  notAdding c && throughClient kubeClient c && negb (isConnect c).

Definition wakeCall (c : call) : bool := wakePhase c && notAdding c.

(** Through [kubeClient] only, and no new connection. *)
Definition sharedClientCall (kubeClient : Clientset) (c : call) : bool :=
  throughClient kubeClient c && negb (isConnect c).

(** ** Scripted environments *)

(** The answers of the collaborators in one concrete situation. The status
    query is answered by the number of calls answered before it, so that an
    instance can wake up while it is polled. *)
Record Scenario := {
  namespaces : result (list string);
  vClustersIn : string -> result (list VCluster);
  statusAt : nat -> string -> result VCluster;
  connection : ClientConfig -> result RestConfig;
  chosen : result string;
  resumed : option error;
  applied : string -> option error;
  deleted : string -> option error;
  timeout : nat;
  installed : result bool;
  collected : list Object * list error * list string;
  serialized : result (list Byte.byte);
  written : option error
}.

Definition answer (s : Scenario) (c : call) (n : nat) : resp c :=
  match c return resp c with
  | Log _ _ => tt
  | AskQuestion _ => chosen s
  | HostClientConfig _ => inr {| restConfigId := 0 |}
  | FactoryClientConfig factory => connection s factory
  | NewForConfig cfg => inr {| clientsetId := restConfigId cfg |}
  | NamespacesList _ => namespaces s
  | ListVClusters _ _ namespace => vClustersIn s namespace
  | GetVCluster _ name _ => statusAt s n name
  | ResumeHelm _ _ => resumed s
  | LoadedConfig _ => {| cliConfigId := 0 |}
  | ApplyPlatformSecret _ _ _ namespace _ _ _ _ _ => applied s namespace
  | DeletePods _ labelSelector _ => deleted s labelSelector
  | Timeout => timeout s
  | NewClientFromConfig => None
  | IsLoftAlreadyInstalled _ _ => installed s
  | NewRuntimeClient cfg => inr {| runtimeClientId := restConfigId cfg |}
  | BackupAll _ _ => collected s
  | ToYAML _ => serialized s
  | WriteFile _ _ _ => written s
  end.

(** The environment of a scenario; its state counts the calls answered. *)
Definition scripted (s : Scenario) : Env :=
  {| World := nat; handle := fun c n => (answer s c n, S n) |}.

(** Two instances in two namespaces, each with a client factory of its
    own. *)
Definition alpha : VCluster :=
  {| Name := "alpha"; Namespace := "team-a";
     ClientFactory := {| clientConfigId := 1 |}; Suspended := false |}.
Definition beta : VCluster :=
  {| Name := "beta"; Namespace := "team-b";
     ClientFactory := {| clientConfigId := 2 |}; Suspended := false |}.
Definition sleepy : VCluster :=
  {| Name := "sleepy"; Namespace := "team-s";
     ClientFactory := {| clientConfigId := 3 |}; Suspended := true |}.
Definition awake (vCluster : VCluster) : VCluster :=
  {| Name := Name vCluster; Namespace := Namespace vCluster;
     ClientFactory := ClientFactory vCluster; Suspended := false |}.

Definition someFlags : GlobalFlags :=
  {| flags_Context := "kind"; flags_Namespace := "default" |}.

Definition someOptions (all restart : bool) : AddVClusterOptions :=
  {| Project := "default"; ImportName := ""; Restart := restart;
     Insecure := false; AccessKey := "key"; Host := "https://platform";
     CertificateAuthorityData := []; All := all |}.

(** Everything answers without error; no instance exists, the platform is
    installed, the operator keeps the default answer of the add prompt. *)
Definition quiet : Scenario :=
  {| namespaces := inr ["default"; "kube-system"];
     vClustersIn := fun _ => inr [];
     statusAt := fun _ _ => inl (errorString "not found");
     connection := fun f => inr {| restConfigId := clientConfigId f |};
     chosen := inr cli.snoozeConfirmation;
     resumed := None;
     applied := fun _ => None;
     deleted := fun _ => None;
     timeout := 3;
     installed := inr true;
     collected := ([], [], []);
     serialized := inr [];
     written := None |}.

(** [quiet] with the given instances by namespace. *)
Definition withInstances (found : string -> list VCluster) (s : Scenario) : Scenario :=
  {| namespaces := namespaces s;
     vClustersIn := fun ns => inr (found ns);
     statusAt := statusAt s;
     connection := connection s;
     chosen := chosen s;
     resumed := resumed s;
     applied := applied s;
     deleted := deleted s;
     timeout := timeout s;
     installed := installed s;
     collected := collected s;
     serialized := serialized s;
     written := written s |}.

(** The operator's answer, the outcome of the wake-up and the answers of
    the status poll replaced in a scenario. *)
Definition withWakeUp (answer : result string) (resume : option error)
    (status : nat -> string -> result VCluster) (s : Scenario) : Scenario :=
  {| namespaces := namespaces s;
     vClustersIn := vClustersIn s;
     statusAt := status;
     connection := connection s;
     chosen := answer;
     resumed := resume;
     applied := applied s;
     deleted := deleted s;
     timeout := timeout s;
     installed := installed s;
     collected := collected s;
     serialized := serialized s;
     written := written s |}.

Definition wakeNow : string := "Yes. Wake and add now.".

(** The wake-up command fails. *)
Definition wakeFails : Scenario :=
  withWakeUp (inr wakeNow) (Some (errorString "release not found"))
    (fun _ _ => inr sleepy) quiet.

(** The wake-up command succeeds, the instance stays suspended. *)
Definition neverWakes : Scenario :=
  withWakeUp (inr wakeNow) None (fun _ _ => inr sleepy) quiet.

(** The instance reports awake from the sixth answered call on. *)
Definition wakesLater : Scenario :=
  withWakeUp (inr wakeNow) None
    (fun n _ => inr (if Nat.leb 5 n then awake sleepy else sleepy)) quiet.

(** An instance whose own client factory cannot produce a connection. *)
Definition broken : VCluster :=
  {| Name := "broken"; Namespace := "team-x";
     ClientFactory := {| clientConfigId := 9 |}; Suspended := false |}.

(** The connections and the platform secret replaced in a scenario. *)
Definition withCluster (connect : ClientConfig -> result RestConfig)
    (apply : string -> option error) (s : Scenario) : Scenario :=
  {| namespaces := namespaces s;
     vClustersIn := vClustersIn s;
     statusAt := statusAt s;
     connection := connect;
     chosen := chosen s;
     resumed := resumed s;
     applied := apply;
     deleted := deleted s;
     timeout := timeout s;
     installed := installed s;
     collected := collected s;
     serialized := serialized s;
     written := written s |}.

Definition connectExcept (bad : nat) (factory : ClientConfig) : result RestConfig :=
  if Nat.eqb (clientConfigId factory) bad
  then inl (errorString "dial tcp: connection refused")
  else inr {| restConfigId := clientConfigId factory |}.

(** The given instances in the namespace "default", found in that order;
    the factory of [broken] fails, every other call succeeds. *)
Definition oneUnreachable (found : list VCluster) : Scenario :=
  withCluster (connectExcept 9) (fun _ => None)
    (withInstances (fun ns => if String.eqb ns "default" then found else []) quiet).

(** Two healthy instances; the platform secret is refused in the namespace
    of [alpha]. *)
Definition applyRefused : Scenario :=
  withCluster (connectExcept 9)
    (fun ns => if String.eqb ns "team-a" then Some (errorString "forbidden") else None)
    (withInstances (fun ns => if String.eqb ns "default" then [alpha; beta] else [])
       quiet).

(** The answers the backup command meets replaced in a scenario. *)
Definition withBackup (isInstalled : result bool) (answer : result string)
    (found : list Object * list error * list string)
    (yaml : result (list Byte.byte)) (write : option error) (s : Scenario)
  : Scenario :=
  {| namespaces := namespaces s;
     vClustersIn := vClustersIn s;
     statusAt := statusAt s;
     connection := connection s;
     chosen := answer;
     resumed := resumed s;
     applied := applied s;
     deleted := deleted s;
     timeout := timeout s;
     installed := isInstalled;
     collected := found;
     serialized := yaml;
     written := write |}.

Definition someBackup : platform.BackupCmd :=
  {| platform.Namespace := "loft"; platform.Filename := "backup.yaml";
     platform.Skip := ["users"] |}.

(** A stand-in for [fmt.Sprintf]: the argument after the format. *)
Definition someSprintf (format arg : string) : string := format ++ " " ++ arg.

Definition someBytes : list Byte.byte := [Byte.x2d; Byte.x2d; Byte.x2d].

(** The platform is installed; two kinds cannot be listed; the file is
    written. *)
Definition partialBackup : Scenario :=
  withBackup (inr true) (inr "Yes")
    ([{| objectKind := "Team"; objectPayload := "admins" |}],
     [errorString "list clusters: forbidden";
      errorString "list sharedsecrets: timeout"],
     ["Backing up teams..."])
    (inr someBytes) None quiet.

(** The platform is not found in the namespace and the operator answers
    "No". *)
Definition declined : Scenario :=
  withBackup (inr false) (inr "No") ([], [], []) (inr []) None quiet.

(** ** More readings of a trace *)

(** A log line of the done level. *)
Definition isDone (c : call) : bool :=
  match c with Log DoneLevel _ => true | _ => false end.

(** The calls of the pause and resume steps of one target: the prompt, the
    wake-up, the timeout and the status poll. *)
Definition isWakeUp (c : call) : bool :=
  match c with
  | AskQuestion _ | ResumeHelm _ _ | Timeout | GetVCluster _ _ _ => true
  | _ => false
  end.

(** The calls lines 141-178 of [addVClusterHelm] make for the instance
    called [vClusterName]: an info line, the prompt, the wake-up of that
    instance, the timeout, and status queries for that name in the context
    and the namespace of the global flags. *)
Definition wakeStep (globalFlags : GlobalFlags) (vClusterName : string)
    (c : call) : bool :=
  match c with
  | Log InfoLevel _ | AskQuestion _ | Timeout => true
  | ResumeHelm _ name => String.eqb name vClusterName
  | GetVCluster context name namespace =>
      String.eqb context (flags_Context globalFlags)
      && String.eqb name vClusterName
      && String.eqb namespace (flags_Namespace globalFlags)
  | _ => false
  end.

(** A prompt. *)
Definition isPrompt (c : call) : bool :=
  match c with AskQuestion _ => true | _ => false end.

(** What lines 109-134 of [BackupCmd.run] call. *)
Definition collectCall (c : call) : bool :=
  match c with
  | Log _ _ | NewRuntimeClient _ | BackupAll _ _ | ToYAML _ | WriteFile _ _ _ => true
  | _ => false
  end.

(** The calls that change something in the cluster. *)
Definition changesCluster (c : call) : bool :=
  match c with
  | ResumeHelm _ _ | ApplyPlatformSecret _ _ _ _ _ _ _ _ _ | DeletePods _ _ _ => true
  | _ => false
  end.

(** The calls of the target resolution. *)
Definition resolveCall (c : call) : bool :=
  match c with
  | Log _ _ | HostClientConfig _ | NewForConfig _ | NamespacesList _
  | ListVClusters _ _ _ | GetVCluster _ _ _ => true
  | _ => false
  end.

(** A lookup of instances made in the context and, for a single instance,
    in the namespace of the global flags; a listing made without a name
    filter. *)
Definition byFlags (globalFlags : GlobalFlags) (c : call) : bool :=
  match c with
  | HostClientConfig context => String.eqb context (flags_Context globalFlags)
  | ListVClusters context name _ =>
      String.eqb context (flags_Context globalFlags) && String.eqb name ""
  | GetVCluster context _ namespace =>
      String.eqb context (flags_Context globalFlags)
      && String.eqb namespace (flags_Namespace globalFlags)
  | _ => true
  end.

(** The answer of a status query, when [ev] is one. *)
Definition statusAnswer (ev : event) : option (result VCluster) :=
  match ev with
  | Ev c r =>
      match c return resp c -> option (result VCluster) with
      | GetVCluster _ _ _ => fun r => Some r
      | _ => fun _ => None
      end r
  end.

(** A status answer that shows the instance still suspended. *)
Definition answeredSuspended (r : result VCluster) : bool :=
  match r with
  | inr vCluster => IsPaused vCluster
  | inl _ => false
  end.

(** The ticks the first [clihelper.Timeout] of a trace gave, none when it
    was never asked. *)
Definition ticksGiven (answers : list nat) : nat :=
  match answers with
  | ticks :: _ => ticks
  | [] => 0
  end.

(** The answer of [clihelper.Timeout], when [ev] is one. *)
Definition timeoutAnswer (ev : event) : option nat :=
  match ev with
  | Ev c r =>
      match c return resp c -> option nat with
      | Timeout => fun r => Some r
      | _ => fun _ => None
      end r
  end.

(** The answer of a prompt, when [ev] is one. *)
Definition promptAnswer (ev : event) : option (result string) :=
  match ev with
  | Ev c r =>
      match c return resp c -> option (result string) with
      | AskQuestion _ => fun r => Some r
      | _ => fun _ => None
      end r
  end.

(** The namespace a listing was made in and its answer, when [ev] is a
    listing. *)
Definition listing (ev : event) : option (string * result (list VCluster)) :=
  match ev with
  | Ev c r =>
      match c return resp c -> option (string * result (list VCluster)) with
      | ListVClusters _ _ namespace => fun r => Some (namespace, r)
      | _ => fun _ => None
      end r
  end.

(** The instances of a listing that succeeded. *)
Definition listed (ev : event) : option (list VCluster) :=
  match listing ev with
  | Some (_, inr found) => Some found
  | _ => None
  end.

(** The answer of the namespace enumeration, when [ev] is one. *)
Definition namespacesAnswer (ev : event) : option (result (list string)) :=
  match ev with
  | Ev c r =>
      match c return resp c -> option (result (list string)) with
      | NamespacesList _ => fun r => Some r
      | _ => fun _ => None
      end r
  end.

(** The answer of the install check, when [ev] is one. *)
Definition installedAnswer (ev : event) : option (result bool) :=
  match ev with
  | Ev c r =>
      match c return resp c -> option (result bool) with
      | IsLoftAlreadyInstalled _ _ => fun r => Some r
      | _ => fun _ => None
      end r
  end.

(** What the backup command may call: it reads, asks and logs, checks the
    installation in the namespace of the command, hands the skip list of
    the command to the collector, and writes one file only, the one of the
    command, with mode 0644. *)
Definition backupCall (cmd : platform.BackupCmd) (c : call) : bool :=
  match c with
  | Log _ _ | AskQuestion _ | NewForConfig _ | NewRuntimeClient _ | ToYAML _
  | NewClientFromConfig => true
  | HostClientConfig context => String.eqb context ""
  | IsLoftAlreadyInstalled _ namespace =>
      String.eqb namespace (platform.Namespace cmd)
  | BackupAll _ skip =>
      if list_eq_dec string_dec skip (platform.Skip cmd) then true else false
  | WriteFile name _ perm =>
      String.eqb name (platform.Filename cmd) && N.eqb perm platform.mode_0644
  | _ => false
  end.

(** The causes an aggregator holds: what [errors.Unwrap] gives for each
    stored error that wraps one. *)
Definition causes (errs : list error) : list error := filterMap Unwrap errs.

(** ** More scripted environments *)

(** The instance [sleepy] as a later status query may find it: awake, and
    in another namespace. *)
Definition moved : VCluster :=
  {| Name := "sleepy"; Namespace := "team-m";
     ClientFactory := {| clientConfigId := 3 |}; Suspended := false |}.

(** The instance is found awake and moved from the sixth answered call
    on. *)
Definition wakesElsewhere : Scenario :=
  withWakeUp (inr wakeNow) None
    (fun n _ => inr (if Nat.leb 5 n then moved else sleepy)) quiet.

(** The prompt cannot be read. *)
Definition promptFails : Scenario :=
  withWakeUp (inl (errorString "EOF")) None (fun _ _ => inr sleepy) quiet.

(** The first namespace holds [alpha]; the listing of the second fails. *)
Definition listingFails : Scenario :=
  {| namespaces := inr ["default"; "kube-system"];
     vClustersIn := fun ns => if String.eqb ns "default" then inr [alpha]
                              else inl (errorString "list: forbidden");
     statusAt := statusAt quiet;
     connection := connection quiet;
     chosen := chosen quiet;
     resumed := resumed quiet;
     applied := applied quiet;
     deleted := deleted quiet;
     timeout := timeout quiet;
     installed := installed quiet;
     collected := collected quiet;
     serialized := serialized quiet;
     written := written quiet |}.

(** Two namespaces with instances and one without between them. *)
Definition threeNamespaces : Scenario :=
  {| namespaces := inr ["team-a"; "empty"; "team-s"];
     vClustersIn := fun ns => inr (if String.eqb ns "team-a" then [alpha; beta]
                                   else if String.eqb ns "team-s" then [sleepy]
                                   else []);
     statusAt := statusAt quiet;
     connection := connection quiet;
     chosen := chosen quiet;
     resumed := resumed quiet;
     applied := applied quiet;
     deleted := deleted quiet;
     timeout := timeout quiet;
     installed := installed quiet;
     collected := collected quiet;
     serialized := serialized quiet;
     written := written quiet |}.

(** The file cannot be written. *)
Definition diskFull : Scenario :=
  withBackup (inr true) (inr "Yes") ([], [], []) (inr someBytes)
    (Some (errorString "no space left on device")) quiet.


Import cli.

(** ** Strings *)

Lemma append_nil_r (s : string) : s ++ "" = s.
Proof. induction s as [|a s IH]; simpl; [reflexivity | now rewrite IH]. Qed.

Lemma append_assoc (s t u : string) : (s ++ t) ++ u = s ++ (t ++ u).
Proof. induction s as [|a s IH]; simpl; [reflexivity | now rewrite IH]. Qed.

Lemma prefix_append (s t : string) : prefix s (s ++ t) = true.
Proof.
  induction s as [|a s IH].
  - now destruct t.
  - cbn [append prefix]. now destruct (ascii_dec a a).
Qed.

(** ** Lists *)

Lemma filterMap_app {A B} (f : A -> option B) (l1 l2 : list A) :
  filterMap f (l1 ++ l2) = (filterMap f l1 ++ filterMap f l2)%list.
Proof.
  induction l1 as [|a l1 IH]; simpl; [reflexivity |].
  destruct (f a); simpl; now rewrite IH.
Qed.

Lemma forallb_weaken {A} (P Q : A -> bool) (l : list A) :
  (forall a, P a = true -> Q a = true) ->
  forallb P l = true -> forallb Q l = true.
Proof.
  intros HPQ. induction l as [|a l IH]; simpl; [reflexivity |].
  intro H. apply andb_true_iff in H. destruct H as [Ha Hl].
  now rewrite (HPQ a Ha), IH.
Qed.

Lemma filter_none {A} (f : A -> bool) (l : list A) :
  forallb (fun a => negb (f a)) l = true -> filter f l = [].
Proof.
  induction l as [|a l IH]; simpl; [reflexivity |].
  intro H. apply andb_true_iff in H. destruct H as [Ha Hl].
  destruct (f a); [discriminate | auto].
Qed.

Lemma existsb_none {A} (f : A -> bool) (l : list A) :
  forallb (fun a => negb (f a)) l = true -> existsb f l = false.
Proof.
  induction l as [|a l IH]; simpl; [reflexivity |].
  intro H. apply andb_true_iff in H. destruct H as [Ha Hl].
  destruct (f a); [discriminate | auto].
Qed.

Lemma filter_all {A} (f : A -> bool) (l : list A) :
  forallb f l = true -> filter f l = l.
Proof.
  induction l as [|a l IH]; simpl; [reflexivity |].
  intro H. apply andb_true_iff in H. destruct H as [Ha Hl].
  now rewrite Ha, IH.
Qed.

Lemma filterMap_none {A B} (f : A -> option B) (l : list A) :
  forallb (fun a => match f a with None => true | Some _ => false end) l = true ->
  filterMap f l = [].
Proof.
  induction l as [|a l IH]; simpl; [reflexivity |].
  intro H. apply andb_true_iff in H. destruct H as [Ha Hl].
  destruct (f a); [discriminate | auto].
Qed.

(** ** Executing programs *)

Lemma run_bind (E : Env) {A B} (p : prog A) (f : A -> prog B) (w : World E) :
  run E (bind p f) w =
  let o := run E p w in
  let o' := run E (f (value o)) (world o) in
  {| value := value o'; world := world o'; trace := (trace o ++ trace o')%list |}.
Proof.
  revert w; induction p as [a | c k IH]; intro w; simpl.
  - now destruct (run E (f a) w).
  - destruct (handle E c w) as [r w']. rewrite IH. reflexivity.
Qed.

Lemma value_bind (E : Env) {A B} (p : prog A) (f : A -> prog B) (w : World E) :
  value (run E (bind p f) w) =
  value (run E (f (value (run E p w))) (world (run E p w))).
Proof. now rewrite run_bind. Qed.

Lemma trace_bind (E : Env) {A B} (p : prog A) (f : A -> prog B) (w : World E) :
  trace (run E (bind p f) w) =
  (trace (run E p w) ++
   trace (run E (f (value (run E p w))) (world (run E p w))))%list.
Proof. now rewrite run_bind. Qed.

Lemma callsOnly_bind {A B} (P : call -> bool) (p : prog A) (f : A -> prog B) :
  callsOnly P p -> (forall a, callsOnly P (f a)) -> callsOnly P (bind p f).
Proof.
  induction p as [a | c k IH]; simpl; intros Hp Hf.
  - apply Hf.
  - destruct Hp as [Hc Hk]. split; [exact Hc | intro r; apply IH; auto].
Qed.

Lemma callsOnly_run (E : Env) {A} (P : call -> bool) (p : prog A) (w : World E) :
  callsOnly P p ->
  forallb (fun ev => P (callOf ev)) (trace (run E p w)) = true.
Proof.
  revert w; induction p as [a | c k IH]; intros w Hp; simpl.
  - reflexivity.
  - destruct Hp as [Hc Hk]. destruct (handle E c w) as [r w']. simpl.
    rewrite Hc. apply IH, Hk.
Qed.

Lemma callsOnly_weaken {A} (P Q : call -> bool) (p : prog A) :
  (forall c, P c = true -> Q c = true) -> callsOnly P p -> callsOnly Q p.
Proof.
  intro HPQ. induction p as [a | c k IH]; simpl; [trivial |].
  intros [Hc Hk]. split; [now apply HPQ | intro r; now apply IH].
Qed.

Create HintDb collaborators.

#[local] Hint Unfold Debugf Infof Donef log_Question find_ListVClusters
  find_GetVCluster kubernetes_NewForConfig platform_ApplyPlatformSecret
  lifecycle_DeletePods clihelper_Timeout perform : collaborators.

Ltac calls_only :=
  repeat (autounfold with collaborators; simpl;
          match goal with
          | |- callsOnly _ (bind _ _) => apply callsOnly_bind; [| intro]
          | |- callsOnly _ (match ?x with _ => _ end) => destruct x
          | |- _ /\ _ => split
          | |- forall _, _ => intro
          | |- True => exact I
          | |- _ = _ => reflexivity
          end).

(** Answer the next call of the program under execution. *)
Ltac answer_call :=
  match goal with
  | |- context [handle ?E ?c ?w] =>
      let r := fresh "r" in
      let w' := fresh "w" in
      destruct (handle E c w) as [r w'] eqn:?; simpl
  end.

Ltac by_call := let c := fresh "c" in intro c; destruct c; simpl; congruence.




(** ** The error aggregator *)

Lemma fold_messages (errs : list error) (acc : string) :
  fold_left (fun b err => b ++ (Error err ++ "|")) errs acc =
  acc ++ fold_left (fun b err => b ++ (Error err ++ "|")) errs "".
Proof.
  revert acc; induction errs as [|e errs IH]; intro acc; simpl.
  - now rewrite append_nil_r.
  - rewrite IH. rewrite (IH (Error e ++ "|")). now rewrite append_assoc.
Qed.

Lemma fold_messages_joined (e : error) (errs : list error) :
  fold_left (fun b err => b ++ (Error err ++ "|")) (e :: errs) "" =
  pipeJoined (e :: errs) ++ "|".
Proof.
  revert e; induction errs as [|e' errs IH]; intro e.
  - reflexivity.
  - change (fold_left _ (e :: e' :: errs) "")
      with (fold_left (fun b err => b ++ (Error err ++ "|")) (e' :: errs)
              (Error e ++ "|")).
    rewrite fold_messages, IH.
    unfold pipeJoined. cbn [map String.concat].
    now rewrite !append_assoc.
Qed.

(** C3 as the spec words it fails: for two recorded errors the combined
    message is not the messages joined by the separator, it has one more
    separator at its end. *)
Lemma CombinedError_not_joined :
  let errs := [errorString "a"; errorString "b"] in
  pipeJoined errs = "a|b" /\
  CombinedError errs = Some (errorString "a|b|") /\
  CombinedError errs <> Some (errorString (pipeJoined errs)).
Proof. repeat split; discriminate. Qed.

(** C3, amended: [CombinedError] gives nil for no recorded error, the one
    recorded error itself for one, and for two or more a new error whose
    message is the recorded messages in recording order, each followed by
    the separator: the joined text and one more separator. *)
Theorem CombinedError_cases :
  CombinedError [] = None /\
  (forall err, CombinedError [err] = Some err) /\
  (forall e1 e2 errs,
     CombinedError (e1 :: e2 :: errs) =
     Some (errorString (pipeJoined (e1 :: e2 :: errs) ++ "|")) /\
     pipeJoined (e1 :: e2 :: errs) ++ "|" =
     String.concat "" (map (fun err => Error err ++ "|") (e1 :: e2 :: errs))).
Proof.
  split; [reflexivity | split; [reflexivity |]].
  intros e1 e2 errs. split.
  - unfold CombinedError. now rewrite fold_messages_joined.
  - generalize (e2 :: errs) as l. intro l. revert e1.
    induction l as [|e l IH]; intro e1.
    + reflexivity.
    + unfold pipeJoined in *. cbn [map String.concat] in *.
      rewrite !append_assoc. rewrite IH. simpl. now rewrite !append_assoc.
Qed.

Lemma CombinedError_nil_iff (errs : VClusterAddError) :
  CombinedError errs = None <-> errs = [].
Proof.
  destruct errs as [|e1 [|e2 errs]]; simpl; split; intro H;
    try reflexivity; discriminate.
Qed.

Lemma addErr_fold_nil_iff (records : list (string * option error))
    (errs : VClusterAddError) :
  fold_left (fun acc r => addErr acc (fst r) (snd r)) records errs = [] <->
  errs = [] /\ Forall (fun r => snd r = None) records.
Proof.
  revert errs; induction records as [|[name err] records IH]; intro errs; simpl.
  - split; [intro H; split; [exact H | constructor] | intros [H _]; exact H].
  - rewrite IH. destruct err as [err|]; simpl.
    + split.
      * intros [H _]. now destruct errs.
      * intros [_ H]. inversion H; discriminate.
    + split.
      * intros [H1 H2]. split; [exact H1 | constructor; [reflexivity | exact H2]].
      * intros [H1 H2]. split; [exact H1 | now inversion H2].
Qed.

(** C4: [addErr] leaves the sequence as it is for a nil error and otherwise
    appends one error that wraps the given one under the message
    "cannot add vcluster <name>: <err>"; the sequence is empty exactly when
    [CombinedError] gives nil, and an aggregator that starts empty gives nil
    exactly when every recorded error was nil. *)
Theorem addErr_record :
  forall (errs : VClusterAddError) (vClusterName : string),
    addErr errs vClusterName None = errs /\
    (forall err,
       addErr errs vClusterName (Some err) =
       (errs ++ [wrapError ("cannot add vcluster " ++ vClusterName ++ ": " ++ Error err)
                   err])%list) /\
    (CombinedError errs = None <-> errs = []) /\
    (forall records : list (string * option error),
       CombinedError
         (fold_left (fun acc r => addErr acc (fst r) (snd r)) records []) = None <->
       Forall (fun r => snd r = None) records).
Proof.
  intros errs vClusterName. split; [reflexivity | split; [| split]].
  - intro err. unfold addErr, Errorf_w.
    now rewrite append_nil_r, !append_assoc.
  - apply CombinedError_nil_iff.
  - intro records. rewrite CombinedError_nil_iff, addErr_fold_nil_iff.
    split; [intros [_ H]; exact H | intro H; split; [reflexivity | exact H]].
Qed.

(** ** Resolving the targets *)

#[local] Arguments append : simpl never.

Lemma listInNamespaces_calls (globalFlags : GlobalFlags)
    (namespaces : list string) (vClusters : list VCluster) :
  callsOnly (fun c => negb (perTarget c))
    (listInNamespaces globalFlags namespaces vClusters).
Proof.
  revert vClusters; induction namespaces as [|ns namespaces IH]; intro vClusters.
  - exact I.
  - cbn [listInNamespaces]. calls_only; apply IH.
Qed.

Lemma resolve_all_calls (options : AddVClusterOptions)
    (globalFlags : GlobalFlags) (vClusterName : string) :
  All options = true ->
  callsOnly (fun c => negb (perTarget c))
    (resolveVClusters options globalFlags vClusterName).
Proof.
  intro H. unfold resolveVClusters. rewrite H.
  calls_only. apply listInNamespaces_calls.
Qed.

Lemma resolve_named_one (E : Env) (options : AddVClusterOptions)
    (globalFlags : GlobalFlags) (vClusterName : string) (w : World E) :
  All options = false ->
  value (run E (resolveVClusters options globalFlags vClusterName) w) <> inr [].
Proof.
  intro H. unfold resolveVClusters. rewrite H.
  autounfold with collaborators. simpl.
  destruct (handle E _ w) as [[err | vCluster] w']; simpl; discriminate.
Qed.

(** C5: when the resolution of the selector gives no target,
    [AddVClusterHelm] returns nil, does nothing after the resolution, and
    the resolution made no call on behalf of a target: no connection from
    a client factory, no prompt, no wake-up, no status poll, no platform
    secret, no pod deletion. *)
Theorem no_target_no_effect :
  forall (E : Env) (w : World E) (options : AddVClusterOptions)
         (globalFlags : GlobalFlags) (vClusterName : string),
    value (run E (resolveVClusters options globalFlags vClusterName) w) = inr [] ->
    let out := run E (AddVClusterHelm options globalFlags vClusterName) w in
    value out = None /\
    world out = world (run E (resolveVClusters options globalFlags vClusterName) w) /\
    trace out = trace (run E (resolveVClusters options globalFlags vClusterName) w) /\
    forallb (fun ev => negb (perTarget (callOf ev))) (trace out) = true.
Proof.
  intros E w options globalFlags vClusterName H out. subst out.
  unfold AddVClusterHelm. rewrite run_bind. cbv zeta. rewrite H. simpl.
  rewrite app_nil_r. repeat split.
  destruct (All options) eqn:HAll.
  - apply callsOnly_run with (P := fun c => negb (perTarget c)).
    now apply resolve_all_calls.
  - exfalso. now apply (resolve_named_one E options globalFlags vClusterName w HAll).
Qed.

(** C5 at a cluster whose two namespaces hold no instance. *)
Lemma no_target_no_effect_quiet :
  let out := run (scripted quiet) (AddVClusterHelm (someOptions true true) someFlags "") 0 in
  value out = None /\
  world out = world (run (scripted quiet)
                       (resolveVClusters (someOptions true true) someFlags "") 0) /\
  trace out = trace (run (scripted quiet)
                       (resolveVClusters (someOptions true true) someFlags "") 0) /\
  forallb (fun ev => negb (perTarget (callOf ev))) (trace out) = true.
Proof.
  apply (@no_target_no_effect (scripted quiet) 0 (someOptions true true) someFlags "").
  reflexivity.
Defined.

(** ** One target *)

Lemma pollUntilAwake_calls (ticks : nat) (gf : GlobalFlags) (name : string) :
  callsOnly isGetVCluster (pollUntilAwake ticks gf name).
Proof.
  induction ticks as [|ticks IH]; [exact I |].
  cbn [pollUntilAwake]. calls_only. exact IH.
Qed.

Lemma pollUntilAwake_trace (E : Env) (ticks : nat) (gf : GlobalFlags)
    (name : string) (w : World E) :
  forallb (fun ev => isGetVCluster (callOf ev))
    (trace (run E (pollUntilAwake ticks gf name) w)) = true.
Proof. apply callsOnly_run, pollUntilAwake_calls. Qed.

Lemma pollUntilAwake_awake (E : Env) (ticks : nat) (gf : GlobalFlags)
    (name : string) (w : World E) (vCluster : VCluster) :
  value (run E (pollUntilAwake ticks gf name) w) = inr vCluster ->
  IsPaused vCluster = false.
Proof.
  revert w; induction ticks as [|ticks IH]; intro w; [discriminate |].
  cbn [pollUntilAwake]. autounfold with collaborators. simpl.
  answer_call. destruct r as [err | v]; simpl; [discriminate |].
  destruct (IsPaused v) eqn:Hv; simpl.
  - apply IH.
  - intro H. injection H as <-. exact Hv.
Qed.

Lemma pollUntilAwake_timeout (E : Env) (ticks : nat) (gf : GlobalFlags)
    (name : string) (w : World E) :
  forallb stillSuspended (trace (run E (pollUntilAwake ticks gf name) w)) = true ->
  value (run E (pollUntilAwake ticks gf name) w) = inl deadlineExceededError /\
  length (trace (run E (pollUntilAwake ticks gf name) w)) = ticks.
Proof.
  revert w; induction ticks as [|ticks IH]; intro w; [now split |].
  cbn [pollUntilAwake]. autounfold with collaborators. simpl.
  answer_call. destruct r as [err | v]; simpl; [discriminate |].
  destruct (IsPaused v) eqn:Hv; simpl; [| discriminate].
  intro H. destruct (IH _ H) as [Hval Hlen]. now rewrite Hlen.
Qed.

Lemma pollUntilAwake_calls_within (P : call -> bool) (ticks : nat)
    (gf : GlobalFlags) (name : string) :
  (forall c, isGetVCluster c = true -> P c = true) ->
  callsOnly P (pollUntilAwake ticks gf name).
Proof.
  intro H. apply callsOnly_weaken with (P := isGetVCluster); [exact H |].
  apply pollUntilAwake_calls.
Qed.

Lemma wakeIfPaused_calls (gf : GlobalFlags) (name : string)
    (vCluster : VCluster) :
  callsOnly wakeCall (wakeIfPaused gf name vCluster).
Proof.
  unfold wakeIfPaused, wakeAndWait, wakeCall. calls_only.
  apply pollUntilAwake_calls_within. by_call.
Qed.

Lemma applyAndRestart_calls (options : AddVClusterOptions) (gf : GlobalFlags)
    (kubeClient : Clientset) (snoozed : bool) (vCluster : VCluster) :
  callsOnly (targetCall kubeClient)
    (applyAndRestart options gf kubeClient snoozed vCluster).
Proof.
  unfold applyAndRestart, reportAdded, targetCall. calls_only.
  all: unfold Clientset_eqb; now rewrite Nat.eqb_refl.
Qed.

Lemma addVClusterHelm_calls (options : AddVClusterOptions) (gf : GlobalFlags)
    (name : string) (vCluster : VCluster) (kubeClient : Clientset) :
  callsOnly (targetCall kubeClient)
    (addVClusterHelm options gf name vCluster kubeClient).
Proof.
  unfold addVClusterHelm. apply callsOnly_bind.
  - apply callsOnly_weaken with (2 := wakeIfPaused_calls gf name vCluster).
    unfold wakeCall, targetCall.
    intros [] H; try discriminate H; simpl in *; try reflexivity.
    now rewrite !andb_true_r.
  - intros [err | [snoozed vCluster']]; [exact I |].
    apply applyAndRestart_calls.
Qed.
Lemma run_addVClusterHelm (E : Env) (options : AddVClusterOptions)
    (gf : GlobalFlags) (name : string) (vCluster : VCluster)
    (kubeClient : Clientset) (w : World E) :
  run E (addVClusterHelm options gf name vCluster kubeClient) w =
  let woke := run E (wakeIfPaused gf name vCluster) w in
  match value woke with
  | inl err => {| value := Some err; world := world woke; trace := trace woke |}
  | inr (snoozed, vCluster') =>
      let o := run E (applyAndRestart options gf kubeClient snoozed vCluster')
                 (world woke) in
      {| value := value o; world := world o;
         trace := (trace woke ++ trace o)%list |}
  end.
Proof.
  unfold addVClusterHelm. rewrite run_bind. cbv zeta.
  destruct (value (run E (wakeIfPaused gf name vCluster) w))
    as [err | [snoozed vCluster']]; [| reflexivity].
  cbn [run value world trace]. now rewrite app_nil_r.
Qed.

(** The events [applyAndRestart] leaves: the configuration, the platform
    secret and, when the secret was applied and the restart flag is set, the
    pod deletion; after these only log lines. *)
Lemma applyAndRestart_shape (E : Env) (options : AddVClusterOptions)
    (gf : GlobalFlags) (kubeClient : Clientset) (snoozed : bool)
    (vCluster : VCluster) (w : World E) :
  let o := run E (applyAndRestart options gf kubeClient snoozed vCluster) w in
  exists (cfg : CLIConfig) (applyErr : option error) (tail : list event),
    trace o =
      Ev (LoadedConfig gf) cfg
      :: Ev (ApplyPlatformSecret cfg kubeClient (ImportName options)
               (Namespace vCluster) (Project options) (AccessKey options)
               (Host options) (Insecure options)
               (CertificateAuthorityData options)) applyErr
      :: tail /\
    match applyErr with
    | Some err => tail = [] /\ value o = Some err
    | None =>
        if Restart options then
          exists (deleteErr : option error) (logs : list event),
            tail = Ev (DeletePods kubeClient
                         ("app=vcluster,release=" ++ Name vCluster)
                         (Namespace vCluster)) deleteErr :: logs /\
            forallb (fun ev => isLog (callOf ev)) logs = true /\
            match deleteErr with
            | Some err =>
                logs = [] /\
                value o = Some (Errorf_w "delete vcluster workloads: " err "")
            | None => value o = None
            end
        else
          forallb (fun ev => isLog (callOf ev)) tail = true /\ value o = None
    end.
Proof.
  unfold applyAndRestart, reportAdded. autounfold with collaborators. simpl.
  answer_call. exists r. answer_call. exists r0.
  destruct r0 as [err |]; simpl.
  - exists []. now repeat split.
  - destruct (Restart options); simpl.
    + answer_call. destruct r0 as [err |]; simpl.
      * eexists. split; [reflexivity |]. exists (Some err), []. now repeat split.
      * destruct snoozed; simpl; repeat answer_call;
          (eexists; split; [reflexivity |]; eexists None, _;
           split; [reflexivity | now split]).
    + destruct snoozed; simpl; repeat answer_call;
        (eexists; split; [reflexivity | now split]).
Qed.

Lemma deleteAnswer_other (ev : event) :
  isDeletePods (callOf ev) = false -> deleteAnswer ev = None.
Proof. destruct ev as [c r]. destruct c; simpl; congruence. Qed.

Lemma applySucceeded_apply (ev : event) :
  applySucceeded ev = true -> isApplySecret (callOf ev) = true.
Proof.
  destruct ev as [c r]. unfold applySucceeded.
  destruct c; simpl; intros; congruence.
Qed.

Lemma splitAtDelete_app (t1 t2 : list event) :
  forallb (fun ev => negb (isDeletePods (callOf ev))) t1 = true ->
  splitAtDelete (t1 ++ t2) =
  match splitAtDelete t2 with
  | Some (before, r, after) => Some ((t1 ++ before)%list, r, after)
  | None => None
  end.
Proof.
  induction t1 as [|ev t1 IH]; simpl.
  - intros _. now destruct (splitAtDelete t2) as [[[? ?] ?] |].
  - intro H. apply andb_true_iff in H. destruct H as [Hev Ht1].
    rewrite deleteAnswer_other by now destruct (isDeletePods (callOf ev)).
    rewrite (IH Ht1). now destruct (splitAtDelete t2) as [[[? ?] ?] |].
Qed.

Lemma splitAtDelete_logs (tr : list event) :
  forallb (fun ev => isLog (callOf ev)) tr = true -> splitAtDelete tr = None.
Proof.
  induction tr as [|ev tr IH]; simpl; [reflexivity |].
  intro H. apply andb_true_iff in H. destruct H as [Hev Htr].
  rewrite deleteAnswer_other, (IH Htr); [reflexivity |].
  destruct ev as [c r]. now destruct c.
Qed.

(** What the trace of the wake phase holds no event of. *)
Lemma wake_trace (E : Env) (gf : GlobalFlags) (name : string)
    (vCluster : VCluster) (w : World E) :
  let t := trace (run E (wakeIfPaused gf name vCluster) w) in
  forallb (fun ev => negb (isDeletePods (callOf ev))) t = true /\
  forallb (fun ev => negb (isApplySecret (callOf ev))) t = true /\
  forallb (fun ev => negb (applySucceeded ev)) t = true.
Proof.
  intro t.
  pose proof (callsOnly_run E wakeCall _ w (wakeIfPaused_calls gf name vCluster))
    as H. fold t in H.
  repeat split; apply forallb_weaken with (2 := H); clear; intros [c r] H;
    unfold wakeCall, applySucceeded in *; destruct c; simpl in *; congruence.
Qed.

Lemma logs_trace (tr : list event) :
  forallb (fun ev => isLog (callOf ev)) tr = true ->
  filter (fun ev => isApplySecret (callOf ev)) tr = [] /\
  existsb (fun ev => isDeletePods (callOf ev)) tr = false /\
  existsb applySucceeded tr = false /\
  filter (fun ev => isDeletePods (callOf ev)) tr = [].
Proof.
  intro H. repeat split;
    first [apply filter_none | apply existsb_none];
    apply forallb_weaken with (2 := H); clear; intros [c r] H;
    unfold applySucceeded in *; destruct c; simpl in *; congruence.
Qed.

(** C7: within one target's operation at most one platform secret is
    applied; the pods are deleted exactly when the restart flag is set and
    the secret was applied without error, and then after it; after the pod
    deletion only log lines follow, so nothing touches the applied secret
    again; a failing pod deletion makes the operation return its cause
    wrapped under "delete vcluster workloads: ". *)
Theorem apply_then_restart :
  forall (E : Env) (w : World E) (options : AddVClusterOptions)
         (gf : GlobalFlags) (name : string) (vCluster : VCluster)
         (kubeClient : Clientset),
    let out := run E (addVClusterHelm options gf name vCluster kubeClient) w in
    length (filter (fun ev => isApplySecret (callOf ev)) (trace out)) <= 1 /\
    existsb (fun ev => isDeletePods (callOf ev)) (trace out) =
      Restart options && existsb applySucceeded (trace out) /\
    match splitAtDelete (trace out) with
    | None => True
    | Some (before, deleted, after) =>
        existsb applySucceeded before = true /\
        forallb (fun ev => isLog (callOf ev)) after = true /\
        match deleted with
        | Some err =>
            value out =
            Some (wrapError ("delete vcluster workloads: " ++ Error err) err)
        | None => value out = None
        end
    end.
Proof.
  intros E w options gf name vCluster kubeClient out. subst out.
  rewrite run_addVClusterHelm. cbv zeta.
  destruct (wake_trace E gf name vCluster w) as [Hd [Ha Hs]].
  destruct (value (run E (wakeIfPaused gf name vCluster) w))
    as [err | [snoozed vCluster']]; cbn [value trace].
  - rewrite (filter_none _ _ Ha), (existsb_none _ _ Hd), (existsb_none _ _ Hs).
    rewrite andb_false_r.
    rewrite <- (app_nil_r (trace _)), (splitAtDelete_app _ [] Hd). simpl.
    repeat split. lia.
  - destruct (applyAndRestart_shape E options gf kubeClient snoozed vCluster'
                (world (run E (wakeIfPaused gf name vCluster) w)))
      as [cfg [applyErr [tail [Ht Hcase]]]].
    rewrite Ht. rewrite filter_app, !existsb_app, (splitAtDelete_app _ _ Hd).
    rewrite (filter_none _ _ Ha), (existsb_none _ _ Hd), (existsb_none _ _ Hs).
    cbn [app filter existsb callOf isApplySecret isDeletePods orb splitAtDelete
         deleteAnswer length].
    unfold applySucceeded at 1 3. cbn [applyAnswer].
    destruct applyErr as [err |].
    + destruct Hcase as [-> Hv]. simpl. rewrite andb_false_r. repeat split. lia.
    + destruct (Restart options).
      * destruct Hcase as [deleteErr [logs [-> [Hlogs Hv]]]].
        destruct (logs_trace logs Hlogs) as [Hf [_ _]].
        cbn [filter callOf isApplySecret existsb isDeletePods orb andb
             splitAtDelete deleteAnswer length].
        rewrite Hf. rewrite existsb_app. cbn [existsb orb].
        unfold applySucceeded at 1. cbn [applyAnswer]. rewrite orb_true_r.
        repeat split; [simpl; lia | exact Hlogs |].
        destruct deleteErr as [err |]; [| exact Hv].
        destruct Hv as [_ Hv]. rewrite Hv. unfold Errorf_w.
        now rewrite append_nil_r.
      * destruct Hcase as [Hlogs Hv].
        destruct (logs_trace tail Hlogs) as [Hf [He [_ _]]].
        rewrite Hf, He, (splitAtDelete_logs _ Hlogs). simpl.
        repeat split. lia.
Qed.
Lemma run_wakeAndWait (E : Env) (gf : GlobalFlags) (name : string) (w : World E) :
  run E (wakeAndWait gf name) w =
  match handle E (ResumeHelm gf name) w with
  | (Some err, w1) =>
      {| value := inl (Errorf_w ("failed to wake up vCluster " ++ name ++ ": ") err "");
         world := w1;
         trace := [Ev (ResumeHelm gf name) (Some err)] |}
  | (None, w1) =>
      let (ticks, w2) := handle E Timeout w1 in
      let o := run E (pollUntilAwake ticks gf name) w2 in
      {| value := match value o with
                  | inl err =>
                      inl (Errorf_w "error waiting for vCluster to wake up " err "")
                  | inr vCluster => inr vCluster
                  end;
         world := world o;
         trace := Ev (ResumeHelm gf name) None :: Ev Timeout ticks :: trace o |}
  end.
Proof.
  unfold wakeAndWait. autounfold with collaborators. cbn [bind run].
  destruct (handle E (ResumeHelm gf name) w) as [[err |] w1]; [reflexivity |].
  cbn [bind run value world trace].
  destruct (handle E Timeout w1) as [ticks w2].
  rewrite run_bind. cbv zeta.
  destruct (value (run E (pollUntilAwake ticks gf name) w2)); cbn [run value world trace];
    now rewrite app_nil_r.
Qed.

Lemma run_wakeIfPaused (E : Env) (gf : GlobalFlags) (name : string)
    (vCluster : VCluster) (w : World E) :
  IsPaused vCluster = true ->
  run E (wakeIfPaused gf name vCluster) w =
  let notice := Log InfoLevel (sleepingNotice vCluster) in
  let prompt := AskQuestion (wakeQuestion vCluster) in
  let asked := after E prompt (after E notice w) in
  match answerOf E prompt (after E notice w) with
  | inl err =>
      {| value := inl (Errorf_w "failed to capture your response " err "");
         world := asked;
         trace := [Ev notice tt; Ev prompt (inl err)] |}
  | inr answer =>
      if String.eqb answer snoozeConfirmation then
        {| value := inr (true, vCluster); world := asked;
           trace := [Ev notice tt; Ev prompt (inr answer)] |}
      else
        let o := run E (wakeAndWait gf name) asked in
        {| value := match value o with
                    | inl err => inl err
                    | inr vCluster' => inr (false, vCluster')
                    end;
           world := world o;
           trace := Ev notice tt :: Ev prompt (inr answer) :: trace o |}
  end.
Proof.
  intro Hp. unfold wakeIfPaused, answerOf, after. rewrite Hp.
  autounfold with collaborators. cbn [bind run]. cbv zeta.
  destruct (handle E (Log InfoLevel (sleepingNotice vCluster)) w) as [[] w1].
  cbn [snd fst bind run value world trace].
  destruct (handle E (AskQuestion (wakeQuestion vCluster)) w1) as [[err | answer] w2];
    cbn [snd fst bind run value world trace]; [reflexivity |].
  destruct (String.eqb answer snoozeConfirmation); cbn [negb]; [reflexivity |].
  rewrite run_bind. cbv zeta.
  destruct (value (run E (wakeAndWait gf name) w2)); cbn [run value world trace];
    now rewrite app_nil_r.
Qed.

(** C1 as the spec words it fails: with the restart flag set, the pods of
    a sleeping instance that is left sleeping are deleted. *)
Lemma leave_sleeping_restarts :
  let kubeClient := {| clientsetId := 3 |} in
  let out := run (scripted quiet)
               (addVClusterHelm (someOptions false true) someFlags "sleepy"
                  sleepy kubeClient) 0 in
  IsPaused sleepy = true /\
  answerOf (scripted quiet) (AskQuestion (wakeQuestion sleepy))
    (after (scripted quiet) (Log InfoLevel (sleepingNotice sleepy)) 0)
  = inr snoozeConfirmation /\
  value out = None /\
  map callOf (filter (fun ev => isDeletePods (callOf ev)) (trace out)) =
  [DeletePods kubeClient "app=vcluster,release=sleepy" "team-s"].
Proof. repeat split. Qed.

(** C1, amended: for a suspended target that the operator leaves sleeping,
    the platform secret is applied once, through the shared client and in
    the target's namespace, for every value of the restart flag; the pods
    are deleted exactly when the restart flag is set and the secret was
    applied without error. *)
Theorem leave_sleeping_applies :
  forall (E : Env) (w : World E) (options : AddVClusterOptions)
         (gf : GlobalFlags) (name : string) (vCluster : VCluster)
         (kubeClient : Clientset),
    IsPaused vCluster = true ->
    answerOf E (AskQuestion (wakeQuestion vCluster))
      (after E (Log InfoLevel (sleepingNotice vCluster)) w)
    = inr snoozeConfirmation ->
    let out := run E (addVClusterHelm options gf name vCluster kubeClient) w in
    exists cfg : CLIConfig,
      map callOf (filter (fun ev => isApplySecret (callOf ev)) (trace out)) =
      [ApplyPlatformSecret cfg kubeClient (ImportName options)
         (Namespace vCluster) (Project options) (AccessKey options)
         (Host options) (Insecure options) (CertificateAuthorityData options)] /\
      map callOf (filter (fun ev => isDeletePods (callOf ev)) (trace out)) =
      if Restart options && existsb applySucceeded (trace out)
      then [DeletePods kubeClient ("app=vcluster,release=" ++ Name vCluster)
              (Namespace vCluster)]
      else [].
Proof.
  intros E w options gf name vCluster kubeClient Hp Ha out. subst out.
  rewrite run_addVClusterHelm, (run_wakeIfPaused E gf name vCluster w Hp).
  cbv zeta. rewrite Ha, String.eqb_refl. cbn [value world trace].
  destruct (applyAndRestart_shape E options gf kubeClient true vCluster
              (after E (AskQuestion (wakeQuestion vCluster))
                 (after E (Log InfoLevel (sleepingNotice vCluster)) w)))
    as [cfg [applyErr [tail [Ht Hcase]]]].
  rewrite Ht. exists cfg.
  destruct applyErr as [err |];
    cbn [app filter existsb callOf isApplySecret isDeletePods orb map
         applySucceeded applyAnswer].
  - destruct Hcase as [-> _]. cbn [existsb filter map]. rewrite andb_false_r.
    now split.
  - rewrite andb_true_r. destruct (Restart options).
    + destruct Hcase as [deleteErr [logs [-> [Hlogs _]]]].
      destruct (logs_trace logs Hlogs) as [Hf [_ [_ Hd]]].
      cbn [filter callOf isApplySecret isDeletePods map]. rewrite Hf, Hd.
      now split.
    + destruct Hcase as [Hlogs _].
      destruct (logs_trace tail Hlogs) as [Hf [_ [_ Hd]]].
      rewrite Hf, Hd. now split.
Qed.

(** C1, amended, at a sleeping instance left sleeping with the restart
    flag set. *)
Lemma leave_sleeping_applies_sleepy :
  let kubeClient := {| clientsetId := 3 |} in
  let out := run (scripted quiet)
               (addVClusterHelm (someOptions false true) someFlags "sleepy"
                  sleepy kubeClient) 0 in
  exists cfg : CLIConfig,
    map callOf (filter (fun ev => isApplySecret (callOf ev)) (trace out)) =
    [ApplyPlatformSecret cfg kubeClient "" "team-s" "default" "key"
       "https://platform" false []] /\
    map callOf (filter (fun ev => isDeletePods (callOf ev)) (trace out)) =
    if true && existsb applySucceeded (trace out)
    then [DeletePods kubeClient ("app=vcluster,release=" ++ "sleepy") "team-s"]
    else [].
Proof.
  exact (@leave_sleeping_applies (scripted quiet) 0 (someOptions false true)
           someFlags "sleepy" sleepy {| clientsetId := 3 |} eq_refl eq_refl).
Defined.

(** ** The batch *)

Lemma addingLine_notice (vCluster : VCluster) (r : unit) :
  addingLine (Ev (Log InfoLevel (addingNotice vCluster)) r) =
  Some (addingNotice vCluster).
Proof.
  unfold addingLine, addingNotice. cbn [callOf]. now rewrite prefix_append.
Qed.

Lemma addingLine_notAdding (tr : list event) :
  forallb (fun ev => notAdding (callOf ev)) tr = true ->
  filterMap addingLine tr = [].
Proof.
  intro H. apply filterMap_none.
  apply forallb_weaken with (2 := H).
  intros [c r]. unfold addingLine. simpl.
  destruct c; try reflexivity. destruct lvl; try reflexivity. simpl.
  now destruct (prefix "adding " msg).
Qed.

Lemma run_addEach_cons (E : Env) (options : AddVClusterOptions)
    (gf : GlobalFlags) (kubeClient : Clientset) (vCluster : VCluster)
    (vClusters : list VCluster) (errs : VClusterAddError) (w : World E) :
  let one := run E (addVClusterHelm options gf (Name vCluster) vCluster kubeClient)
               (after E (Log InfoLevel (addingNotice vCluster)) w) in
  let rest := run E (addEach options gf kubeClient vClusters
                       (addErr errs (Name vCluster) (value one))) (world one) in
  run E (addEach options gf kubeClient (vCluster :: vClusters) errs) w =
  {| value := value rest; world := world rest;
     trace := Ev (Log InfoLevel (addingNotice vCluster)) tt
              :: (trace one ++ trace rest)%list |}.
Proof.
  cbn [addEach]. unfold Infof, perform, after. cbn [bind run].
  destruct (handle E (Log InfoLevel (addingNotice vCluster)) w) as [[] w1].
  cbn [snd]. now rewrite run_bind.
Qed.

Lemma addEach_all_started (E : Env) (options : AddVClusterOptions)
    (gf : GlobalFlags) (kubeClient : Clientset) (vClusters : list VCluster) :
  forall (errs : VClusterAddError) (w : World E),
    filterMap addingLine
      (trace (run E (addEach options gf kubeClient vClusters errs) w)) =
    map addingNotice vClusters.
Proof.
  induction vClusters as [|vCluster vClusters IH]; intros errs w; [reflexivity |].
  rewrite run_addEach_cons. cbn [trace filterMap map].
  rewrite addingLine_notice.
  rewrite filterMap_app, IH. rewrite addingLine_notAdding; [reflexivity |].
  apply forallb_weaken with (P := fun ev => targetCall kubeClient (callOf ev)).
  - intros ev H. unfold targetCall in H.
    apply andb_true_iff in H. destruct H as [H _].
    apply andb_true_iff in H. now destruct H.
  - apply callsOnly_run, addVClusterHelm_calls.
Qed.

Lemma polls_suspended (tr : list event) :
  forallb (fun ev => isGetVCluster (callOf ev)) tr = true ->
  forallb (fun ev => negb (isGetVCluster (callOf ev)) || stillSuspended ev) tr = true ->
  forallb stillSuspended tr = true.
Proof.
  induction tr as [|ev tr IH]; simpl; [reflexivity |].
  intros H1 H2. apply andb_true_iff in H1, H2.
  destruct H1 as [Hg H1], H2 as [Hs H2]. rewrite Hg in Hs. simpl in Hs.
  now rewrite Hs, IH.
Qed.

Lemma wake_messages_differ (name : string) (err err' : error) :
  Error (Errorf_w ("failed to wake up vCluster " ++ name ++ ": ") err "") <>
  Error (Errorf_w "error waiting for vCluster to wake up " err' "").
Proof.
  intro H. apply (f_equal (String.get 0)) in H. discriminate H.
Qed.

(** C6: for a suspended target the operator chooses to wake, a failing
    resume command makes the target's operation return the cause wrapped
    under "failed to wake up vCluster <name>: "; a status poll that reports
    the instance suspended at every tick makes it return
    [context.DeadlineExceeded] wrapped under "error waiting for vCluster to
    wake up ", after as many polls as the timeout has ticks; the two
    messages differ for every name and every cause; in both cases no
    platform secret is applied for the target, and in a batch the error is
    handed to [addErr] and the loop goes on with every remaining target. *)
Theorem wake_failures :
  forall (E : Env) (w : World E) (options : AddVClusterOptions)
         (gf : GlobalFlags) (name : string) (vCluster : VCluster)
         (kubeClient : Clientset) (answer : string),
    IsPaused vCluster = true ->
    answerOf E (AskQuestion (wakeQuestion vCluster))
      (after E (Log InfoLevel (sleepingNotice vCluster)) w) = inr answer ->
    answer <> snoozeConfirmation ->
    let asked := after E (AskQuestion (wakeQuestion vCluster))
                   (after E (Log InfoLevel (sleepingNotice vCluster)) w) in
    let out := run E (addVClusterHelm options gf name vCluster kubeClient) w in
    (forall err,
       answerOf E (ResumeHelm gf name) asked = Some err ->
       value out =
         Some (wrapError ("failed to wake up vCluster " ++ name ++ ": " ++ Error err)
                 err) /\
       existsb (fun ev => isApplySecret (callOf ev)) (trace out) = false) /\
    (answerOf E (ResumeHelm gf name) asked = None ->
     forallb (fun ev => negb (isGetVCluster (callOf ev)) || stillSuspended ev)
       (trace out) = true ->
     value out =
       Some (wrapError
               "error waiting for vCluster to wake up context deadline exceeded"
               deadlineExceededError) /\
     length (filter (fun ev => isGetVCluster (callOf ev)) (trace out)) =
       answerOf E Timeout (after E (ResumeHelm gf name) asked) /\
     existsb (fun ev => isApplySecret (callOf ev)) (trace out) = false) /\
    (forall err err',
       Error (wrapError ("failed to wake up vCluster " ++ name ++ ": " ++ Error err) err)
       <> Error (Errorf_w "error waiting for vCluster to wake up " err' "")) /\
    (forall (vClusters : list VCluster) (errs : VClusterAddError) (w0 : World E),
       name = Name vCluster ->
       after E (Log InfoLevel (addingNotice vCluster)) w0 = w ->
       let batch := run E (addEach options gf kubeClient (vCluster :: vClusters) errs) w0 in
       let others := run E (addEach options gf kubeClient vClusters
                              (addErr errs (Name vCluster) (value out)))
                       (world out) in
       value batch = value others /\
       trace batch = Ev (Log InfoLevel (addingNotice vCluster)) tt
                     :: (trace out ++ trace others)%list /\
       filterMap addingLine (trace batch) = map addingNotice (vCluster :: vClusters)).
Proof.
  intros E w options gf name vCluster kubeClient answer Hp Ha Hn asked out.
  assert (Hout : out = run E (addVClusterHelm options gf name vCluster kubeClient) w)
    by reflexivity.
  rewrite run_addVClusterHelm, (run_wakeIfPaused E gf name vCluster w Hp) in Hout.
  cbv zeta in Hout. rewrite Ha in Hout.
  apply String.eqb_neq in Hn. rewrite Hn in Hout. fold asked in Hout.
  rewrite run_wakeAndWait in Hout.
  split; [| split; [| split]].
  - unfold answerOf. intros err Hr.
    destruct (handle E (ResumeHelm gf name) asked) as [r w1].
    cbn [fst] in Hr. subst r. rewrite Hout. cbn [value trace].
    unfold Errorf_w. rewrite append_nil_r, !append_assoc. now split.
  - unfold answerOf, after. intros Hr Hpolls.
    destruct (handle E (ResumeHelm gf name) asked) as [r w1].
    cbn [fst snd] in *. subst r.
    destruct (handle E Timeout w1) as [ticks w2]. cbn [fst].
    cbv zeta in Hout. cbn [value world trace] in Hout.
    pose proof (pollUntilAwake_trace E ticks gf name w2) as Hget.
    pose proof (pollUntilAwake_timeout E ticks gf name w2) as Htimeout.
    destruct (value (run E (pollUntilAwake ticks gf name) w2)) as [err | woken].
    + rewrite Hout in *. cbn [value trace] in *.
      cbn [forallb callOf isGetVCluster negb orb andb] in Hpolls.
      destruct (Htimeout (polls_suspended _ Hget Hpolls)) as [[= ->] Hlen].
      cbn [filter existsb callOf isGetVCluster isApplySecret orb].
      split; [reflexivity | split].
      * rewrite filter_all by exact Hget. exact Hlen.
      * apply existsb_none. apply forallb_weaken with (2 := Hget).
        clear. intros [c r] H. destruct c; simpl in *; congruence.
    + exfalso. rewrite Hout in Hpolls. cbn [trace] in Hpolls.
      rewrite forallb_app in Hpolls.
      apply andb_true_iff in Hpolls. destruct Hpolls as [Hpolls _].
      cbn [forallb callOf isGetVCluster negb orb andb] in Hpolls.
      now destruct (Htimeout (polls_suspended _ Hget Hpolls)).
  - intros err err'.
    pose proof (wake_messages_differ name err err') as H.
    unfold Errorf_w in H. cbn [Error] in *.
    now rewrite append_nil_r, !append_assoc in H.
  - intros vClusters errs w0 Hname Hw. cbv zeta.
    rewrite run_addEach_cons. cbv zeta. rewrite Hw, <- Hname. fold out.
    cbn [value trace]. repeat split.
    rewrite <- (addEach_all_started E options gf kubeClient
                  (vCluster :: vClusters) errs w0).
    rewrite run_addEach_cons. cbv zeta. now rewrite Hw, <- Hname.
Qed.

(** C6 at an instance whose wake-up command fails and at one that never
    wakes. *)
Lemma wake_failures_sleepy :
  let kubeClient := {| clientsetId := 3 |} in
  value (run (scripted wakeFails)
           (addVClusterHelm (someOptions false true) someFlags "sleepy" sleepy
              kubeClient) 0) =
    Some (wrapError ("failed to wake up vCluster " ++ "sleepy" ++ ": " ++
                     "release not found")
            (errorString "release not found")) /\
  value (run (scripted neverWakes)
           (addVClusterHelm (someOptions false true) someFlags "sleepy" sleepy
              kubeClient) 0) =
    Some (wrapError
            "error waiting for vCluster to wake up context deadline exceeded"
            deadlineExceededError).
Proof.
  assert (Hn : wakeNow <> snoozeConfirmation) by discriminate.
  split.
  - exact (proj1 (proj1 (wake_failures (scripted wakeFails) 0
                           (someOptions false true) someFlags "sleepy" sleepy
                           {| clientsetId := 3 |} wakeNow eq_refl eq_refl Hn)
                    (errorString "release not found") eq_refl)).
  - exact (proj1 (proj1 (proj2 (wake_failures (scripted neverWakes) 0
                                  (someOptions false true) someFlags "sleepy"
                                  sleepy {| clientsetId := 3 |} wakeNow
                                  eq_refl eq_refl Hn))
                    eq_refl eq_refl)).
Defined.
Lemma addEach_calls (options : AddVClusterOptions) (gf : GlobalFlags)
    (kubeClient : Clientset) (vClusters : list VCluster) :
  forall errs : VClusterAddError,
    callsOnly (sharedClientCall kubeClient)
      (addEach options gf kubeClient vClusters errs).
Proof.
  induction vClusters as [|vCluster vClusters IH]; intro errs; [exact I |].
  cbn [addEach]. unfold Infof, perform. cbn [bind callsOnly].
  split; [reflexivity | intros _].
  apply callsOnly_bind; [| intro err; apply IH].
  apply callsOnly_weaken with (2 := addVClusterHelm_calls options gf
                                      (Name vCluster) vCluster kubeClient).
  intros c H. unfold targetCall in H. unfold sharedClientCall.
  apply andb_true_iff in H. destruct H as [H Hc].
  apply andb_true_iff in H. destruct H as [_ Ht]. now rewrite Ht, Hc.
Qed.

Lemma run_addResolved (E : Env) (options : AddVClusterOptions)
    (gf : GlobalFlags) (first : VCluster) (rest : list VCluster) (w : World E) :
  let factory := FactoryClientConfig (ClientFactory first) in
  run E (addResolved options gf (first :: rest)) w =
  match handle E factory w with
  | (inl err, w1) =>
      {| value := Some err; world := w1; trace := [Ev factory (inl err)] |}
  | (inr restConfig, w1) =>
      match handle E (NewForConfig restConfig) w1 with
      | (inl err, w2) =>
          {| value := Some err; world := w2;
             trace := [Ev factory (inr restConfig);
                       Ev (NewForConfig restConfig) (inl err)] |}
      | (inr kubeClient, w2) =>
          let trying :=
            Log DebugLevel ("trying to add " ++ fmt_d (length (first :: rest)) ++
                            " vClusters to platform") in
          let batch := run E (addEach options gf kubeClient (first :: rest) [])
                         (after E trying w2) in
          {| value := CombinedError (value batch); world := world batch;
             trace := Ev factory (inr restConfig)
                      :: Ev (NewForConfig restConfig) (inr kubeClient)
                      :: Ev trying tt :: trace batch |}
      end
  end.
Proof.
  intro factory. subst factory. unfold addResolved, after.
  autounfold with collaborators. cbn [bind run].
  destruct (handle E (FactoryClientConfig (ClientFactory first)) w)
    as [[err | restConfig] w1]; [reflexivity |].
  cbn [bind run value world trace].
  destruct (handle E (NewForConfig restConfig) w1) as [[err | kubeClient] w2];
    [reflexivity |].
  cbn [bind run value world trace]. cbv zeta.
  destruct (handle E (Log DebugLevel _) w2) as [[] w3]. cbn [snd].
  change (Call (Log InfoLevel (addingNotice first)) _) with
    (bind (addEach options gf kubeClient (first :: rest) [])
       (fun errs => Ret (CombinedError errs))).
  rewrite run_bind. cbv zeta. cbn [run value world trace].
  now rewrite app_nil_r.
Qed.

(** C9: in the registration of a nonempty batch the one connection is
    constructed from the client factory of the first target; when the
    factory or the client construction fails, that error is returned as it
    is and nothing else is called, whatever the other targets are; when it
    succeeds, every later call reaches the cluster through that client and
    constructs no connection, and every target's turn is opened. *)
Theorem single_connection :
  forall (E : Env) (w : World E) (options : AddVClusterOptions)
         (gf : GlobalFlags) (first : VCluster) (rest : list VCluster),
    let factory := FactoryClientConfig (ClientFactory first) in
    let out := run E (addResolved options gf (first :: rest)) w in
    match handle E factory w with
    | (inl err, _) =>
        value out = Some err /\ trace out = [Ev factory (inl err)]
    | (inr restConfig, w1) =>
        match handle E (NewForConfig restConfig) w1 with
        | (inl err, _) =>
            value out = Some err /\
            trace out = [Ev factory (inr restConfig);
                         Ev (NewForConfig restConfig) (inl err)]
        | (inr kubeClient, _) =>
            exists batch : list event,
              trace out = Ev factory (inr restConfig)
                          :: Ev (NewForConfig restConfig) (inr kubeClient)
                          :: batch /\
              forallb (fun ev => sharedClientCall kubeClient (callOf ev)) batch
                = true /\
              filterMap addingLine batch = map addingNotice (first :: rest)
        end
    end.
Proof.
  intros E w options gf first rest factory out. subst out.
  rewrite run_addResolved. cbv zeta. fold factory.
  destruct (handle E factory w) as [[err | restConfig] w1]; [now split |].
  destruct (handle E (NewForConfig restConfig) w1) as [[err | kubeClient] w2];
    [now split |].
  cbn [trace]. eexists. split; [reflexivity |].
  cbn [forallb filterMap callOf]. split.
  - apply callsOnly_run, addEach_calls.
  - change (addingLine (Ev (Log DebugLevel _) tt)) with (@None string).
    cbv iota. apply addEach_all_started.
Qed.
Lemma handle_eta (E : Env) (c : call) (w : World E) :
  handle E c w = (answerOf E c w, after E c w).
Proof. unfold answerOf, after. now destruct (handle E c w). Qed.

(** C2 as the spec words it fails. With the target whose own connection
    fails found first, the batch ends on the bare connection error, which
    does not name the target, and the healthy target is not registered;
    with it found second, its connection is never asked for, and the batch
    returns no error at all. *)
Lemma first_connection_decides :
  let options := someOptions true false in
  let out := run (scripted (oneUnreachable [broken; alpha]))
               (AddVClusterHelm options someFlags "") 0 in
  let out' := run (scripted (oneUnreachable [alpha; broken]))
                (AddVClusterHelm options someFlags "") 0 in
  value (run (scripted (oneUnreachable [broken; alpha]))
           (resolveVClusters options someFlags "") 0) = inr [broken; alpha] /\
  IsPaused alpha = false /\
  connection (oneUnreachable [broken; alpha]) (ClientFactory broken) =
    inl (errorString "dial tcp: connection refused") /\
  value out = Some (errorString "dial tcp: connection refused") /\
  index 0 "broken" "dial tcp: connection refused" = None /\
  existsb (fun ev => isApplySecret (callOf ev)) (trace out) = false /\
  value out' = None.
Proof. repeat split. Qed.

(** C2, amended: in a batch of two targets whose one connection, that of
    the first target's factory, is constructed, both operations run to
    their end one after the other whatever the first returns; the result is
    nil when both return nil, the error of the one failing operation
    wrapped under "cannot add vcluster <name>: " when one fails, and a new
    error with both wrapped messages, each followed by the separator, when
    both fail.  In every batch every target's turn is opened, and no
    connection but that of the first target is constructed. *)
Theorem two_targets :
  forall (E : Env) (w : World E) (options : AddVClusterOptions)
         (gf : GlobalFlags) (a b : VCluster) (restConfig : RestConfig)
         (kubeClient : Clientset),
    let factory := FactoryClientConfig (ClientFactory a) in
    let trying := Log DebugLevel ("trying to add " ++ fmt_d 2 ++
                                  " vClusters to platform") in
    answerOf E factory w = inr restConfig ->
    answerOf E (NewForConfig restConfig) (after E factory w) = inr kubeClient ->
    let ra := run E (addVClusterHelm options gf (Name a) a kubeClient)
                (after E (Log InfoLevel (addingNotice a))
                   (after E trying
                      (after E (NewForConfig restConfig) (after E factory w)))) in
    let rb := run E (addVClusterHelm options gf (Name b) b kubeClient)
                (after E (Log InfoLevel (addingNotice b)) (world ra)) in
    let out := run E (addResolved options gf [a; b]) w in
    trace out =
      Ev factory (inr restConfig)
      :: Ev (NewForConfig restConfig) (inr kubeClient)
      :: Ev trying tt
      :: Ev (Log InfoLevel (addingNotice a)) tt
      :: (trace ra ++ Ev (Log InfoLevel (addingNotice b)) tt :: trace rb)%list /\
    value out =
      match value ra, value rb with
      | None, None => None
      | Some ea, None =>
          Some (wrapError ("cannot add vcluster " ++ Name a ++ ": " ++ Error ea) ea)
      | None, Some eb =>
          Some (wrapError ("cannot add vcluster " ++ Name b ++ ": " ++ Error eb) eb)
      | Some ea, Some eb =>
          Some (errorString
                  (("cannot add vcluster " ++ Name a ++ ": " ++ Error ea) ++ "|" ++
                   ("cannot add vcluster " ++ Name b ++ ": " ++ Error eb) ++ "|"))
      end /\
    (forall (vClusters : list VCluster) (errs : VClusterAddError) (w' : World E),
       filterMap addingLine
         (trace (run E (addEach options gf kubeClient vClusters errs) w')) =
       map addingNotice vClusters) /\
    map callOf (filter (fun ev => isConnect (callOf ev)) (trace out)) =
      [factory; NewForConfig restConfig].
Proof.
  intros E w options gf a b restConfig kubeClient factory trying Hf Hc ra rb out.
  subst out. rewrite run_addResolved. cbv zeta. fold factory.
  rewrite (handle_eta E factory w), Hf.
  rewrite (handle_eta E (NewForConfig restConfig) (after E factory w)), Hc.
  change (Datatypes.length [a; b]) with 2. fold trying.
  rewrite !run_addEach_cons. cbv zeta. cbn [run addEach value world trace].
  fold ra. fold rb. rewrite app_nil_r.
  split; [reflexivity | split; [| split; [intros; apply addEach_all_started |]]].
  - unfold addErr, Errorf_w.
    destruct (value ra) as [ea |], (value rb) as [eb |]; cbn [app CombinedError];
      rewrite ?append_nil_r, ?append_assoc; try reflexivity.
    cbn [fold_left Error]. now rewrite !append_assoc.
  - assert (Hquiet : forall (v : VCluster) (w' : World E),
              filter (fun ev => isConnect (callOf ev))
                (trace (run E (addVClusterHelm options gf (Name v) v kubeClient) w'))
              = []).
    { intros v w'. apply filter_none.
      apply forallb_weaken with
        (2 := callsOnly_run E (targetCall kubeClient) _ w'
                (addVClusterHelm_calls options gf (Name v) v kubeClient)).
      intros ev H. unfold targetCall in H. apply andb_true_iff in H. apply H. }
    cbn [filter callOf isConnect map]. rewrite filter_app.
    cbn [filter callOf isConnect]. unfold ra, rb. rewrite !Hquiet. reflexivity.
Qed.

(** C2, amended, at two healthy instances where the platform secret of
    the first is refused: the second is registered all the same, and the
    error names the first. *)
Lemma two_targets_apply_refused :
  let out := run (scripted applyRefused)
               (addResolved (someOptions true false) someFlags [alpha; beta]) 0 in
  value out =
    Some (wrapError ("cannot add vcluster " ++ "alpha" ++ ": " ++ "forbidden")
            (errorString "forbidden")) /\
  map callOf (filter applySucceeded (trace out)) =
    [ApplyPlatformSecret {| cliConfigId := 0 |} {| clientsetId := 1 |} ""
       "team-b" "default" "key" "https://platform" false []].
Proof.
  split; [| reflexivity].
  exact (proj1 (proj2 (two_targets (scripted applyRefused) 0
                         (someOptions true false) someFlags alpha beta
                         {| restConfigId := 1 |} {| clientsetId := 1 |}
                         eq_refl eq_refl))).
Defined.

(** ** Further properties of the registration *)

Lemma causes_fold (records : list (string * option error)) (errs : VClusterAddError) :
  causes (fold_left (fun acc r => addErr acc (fst r) (snd r)) records errs) =
  (causes errs ++ filterMap snd records)%list.
Proof.
  revert errs; induction records as [|[name err] records IH]; intro errs;
    cbn [fold_left filterMap fst snd].
  - now rewrite app_nil_r.
  - rewrite IH. destruct err as [err |]; cbn [addErr]; [| reflexivity].
    unfold causes. rewrite filterMap_app. cbn [filterMap Errorf_w Unwrap].
    now rewrite <- app_assoc.
Qed.

(** X1: the aggregator keeps every cause: unwrapping the stored errors
    gives back the non-nil errors that were recorded, in recording order.
    The combined error of exactly one failure still unwraps to its cause
    and carries the target's name in its message; the combined error of
    two or more failures is a plain text error that unwraps to nothing. *)
Theorem aggregator_keeps_causes :
  (forall records : list (string * option error),
     causes (fold_left (fun acc r => addErr acc (fst r) (snd r)) records []) =
     filterMap snd records) /\
  (forall (name : string) (err : error),
     exists e, CombinedError (addErr [] name (Some err)) = Some e /\
               Unwrap e = Some err /\
               Error e = "cannot add vcluster " ++ name ++ ": " ++ Error err) /\
  (forall (e1 e2 : error) (errs : list error),
     exists e, CombinedError (e1 :: e2 :: errs) = Some e /\ Unwrap e = None).
Proof.
  split; [| split].
  - intro records. now rewrite causes_fold.
  - intros name err. eexists. split; [reflexivity | split; [reflexivity |]].
    cbn [Error Errorf_w]. now rewrite append_nil_r, !append_assoc.
  - intros e1 e2 errs. eexists. split; reflexivity.
Qed.

(** The done line of [applyAndRestart] and what it leaves out. *)
Lemma applyAndRestart_lines (E : Env) (options : AddVClusterOptions)
    (gf : GlobalFlags) (kubeClient : Clientset) (snoozed : bool)
    (vCluster : VCluster) (w : World E) :
  let o := run E (applyAndRestart options gf kubeClient snoozed vCluster) w in
  map callOf (filter (fun ev => isDone (callOf ev)) (trace o)) =
    match value o with
    | Some _ => []
    | None =>
        [Log DoneLevel
           (if snoozed
            then "Run 'vcluster wakeup --help' to learn how to wake up vCluster " ++
                 Namespace vCluster ++ "/" ++ Name vCluster ++
                 " to complete the add operation."
            else "Successfully added vCluster " ++ Namespace vCluster ++ "/" ++
                 Name vCluster)]
    end /\
  existsb (fun ev => isWakeUp (callOf ev)) (trace o) = false /\
  length (filter (fun ev => isDeletePods (callOf ev)) (trace o)) <= 1.
Proof.
  unfold applyAndRestart, reportAdded. autounfold with collaborators. simpl.
  answer_call. answer_call. destruct r0 as [err |]; simpl; [repeat split; lia |].
  destruct (Restart options); simpl.
  - answer_call. destruct r0 as [err |]; simpl; [repeat split; lia |].
    destruct snoozed; simpl; repeat answer_call; repeat split; lia.
  - destruct snoozed; simpl; repeat answer_call; repeat split; lia.
Qed.


Lemma pollUntilAwake_steps (ticks : nat) (gf : GlobalFlags) (name : string) :
  callsOnly (wakeStep gf name) (pollUntilAwake ticks gf name).
Proof.
  induction ticks as [|ticks IH]; [exact I |].
  cbn [pollUntilAwake]. calls_only; [| exact IH].
  now rewrite !String.eqb_refl.
Qed.

Lemma wakeIfPaused_steps (gf : GlobalFlags) (name : string) (vCluster : VCluster) :
  callsOnly (wakeStep gf name) (wakeIfPaused gf name vCluster).
Proof.
  unfold wakeIfPaused, wakeAndWait. calls_only.
  - apply String.eqb_refl.
  - apply pollUntilAwake_steps.
Qed.

Lemma wake_steps_trace (E : Env) (gf : GlobalFlags) (name : string)
    (vCluster : VCluster) (w : World E) :
  forallb (fun ev => wakeStep gf name (callOf ev))
    (trace (run E (wakeIfPaused gf name vCluster) w)) = true.
Proof. apply callsOnly_run, wakeIfPaused_steps. Qed.

Lemma wake_no_done (E : Env) (gf : GlobalFlags) (name : string)
    (vCluster : VCluster) (w : World E) :
  filter (fun ev => isDone (callOf ev))
    (trace (run E (wakeIfPaused gf name vCluster) w)) = [].
Proof.
  apply filter_none.
  apply forallb_weaken with (2 := wake_steps_trace E gf name vCluster w).
  intros [c r] H. destruct c; try discriminate H; try reflexivity.
  now destruct lvl.
Qed.

Lemma filter_absent {A} (f : A -> bool) (l : list A) :
  existsb f l = false -> filter f l = [].
Proof.
  induction l as [|a l IH]; simpl; [reflexivity |].
  destruct (f a); [discriminate | exact IH].
Qed.

(** X2: a target that is not suspended is never asked about, woken or
    polled; its platform secret is applied once, in its own namespace and
    through the given client; and when its operation returns nil, the one
    done line is "Successfully added vCluster <namespace>/<name>". *)
Theorem active_target_not_prompted :
  forall (E : Env) (w : World E) (options : AddVClusterOptions)
         (gf : GlobalFlags) (name : string) (vCluster : VCluster)
         (kubeClient : Clientset),
    IsPaused vCluster = false ->
    let out := run E (addVClusterHelm options gf name vCluster kubeClient) w in
    existsb (fun ev => isWakeUp (callOf ev)) (trace out) = false /\
    (exists cfg : CLIConfig,
       map callOf (filter (fun ev => isApplySecret (callOf ev)) (trace out)) =
       [ApplyPlatformSecret cfg kubeClient (ImportName options)
          (Namespace vCluster) (Project options) (AccessKey options)
          (Host options) (Insecure options) (CertificateAuthorityData options)]) /\
    map callOf (filter (fun ev => isDone (callOf ev)) (trace out)) =
      match value out with
      | Some _ => []
      | None =>
          [Log DoneLevel ("Successfully added vCluster " ++ Namespace vCluster ++
                          "/" ++ Name vCluster)]
      end.
Proof.
  intros E w options gf name vCluster kubeClient Hp out. subst out.
  rewrite run_addVClusterHelm. unfold wakeIfPaused. rewrite Hp.
  cbv zeta. cbn [run value world trace app].
  destruct (applyAndRestart_lines E options gf kubeClient false vCluster w)
    as [Hdone [Hwake _]].
  destruct (applyAndRestart_shape E options gf kubeClient false vCluster w)
    as [cfg [applyErr [tail [Ht Hcase]]]].
  split; [exact Hwake | split; [| exact Hdone]].
  exists cfg. rewrite Ht. cbn [filter callOf isApplySecret map].
  destruct applyErr as [err |].
  - now destruct Hcase as [-> _].
  - destruct (Restart options).
    + destruct Hcase as [deleteErr [logs [-> [Hlogs _]]]].
      cbn [filter callOf isApplySecret].
      now rewrite (proj1 (logs_trace logs Hlogs)).
    + destruct Hcase as [Hlogs _]. now rewrite (proj1 (logs_trace tail Hlogs)).
Qed.

(** X2 at a running instance. *)
Lemma active_target_not_prompted_alpha :
  let out := run (scripted quiet)
               (addVClusterHelm (someOptions false true) someFlags "alpha" alpha
                  {| clientsetId := 1 |}) 0 in
  existsb (fun ev => isWakeUp (callOf ev)) (trace out) = false /\
  map callOf (filter (fun ev => isDone (callOf ev)) (trace out)) =
    [Log DoneLevel "Successfully added vCluster team-a/alpha"].
Proof.
  pose proof (active_target_not_prompted (scripted quiet) 0
                (someOptions false true) someFlags "alpha" alpha
                {| clientsetId := 1 |} eq_refl) as H.
  split; [exact (proj1 H) | exact (proj2 (proj2 H))].
Defined.

(** X3: a suspended target that the operator leaves sleeping is asked
    about once and is never woken or polled; when its operation returns
    nil, the one done line tells how to wake it up to complete the add
    operation, and no line reports it as successfully added. *)
Theorem left_sleeping_reported_pending :
  forall (E : Env) (w : World E) (options : AddVClusterOptions)
         (gf : GlobalFlags) (name : string) (vCluster : VCluster)
         (kubeClient : Clientset),
    IsPaused vCluster = true ->
    answerOf E (AskQuestion (wakeQuestion vCluster))
      (after E (Log InfoLevel (sleepingNotice vCluster)) w)
    = inr snoozeConfirmation ->
    let out := run E (addVClusterHelm options gf name vCluster kubeClient) w in
    map callOf (filter (fun ev => isWakeUp (callOf ev)) (trace out)) =
      [AskQuestion (wakeQuestion vCluster)] /\
    map callOf (filter (fun ev => isDone (callOf ev)) (trace out)) =
      match value out with
      | Some _ => []
      | None =>
          [Log DoneLevel
             ("Run 'vcluster wakeup --help' to learn how to wake up vCluster " ++
              Namespace vCluster ++ "/" ++ Name vCluster ++
              " to complete the add operation.")]
      end.
Proof.
  intros E w options gf name vCluster kubeClient Hp Ha out. subst out.
  rewrite run_addVClusterHelm, (run_wakeIfPaused E gf name vCluster w Hp).
  cbv zeta. rewrite Ha, String.eqb_refl. cbn [value world trace].
  match goal with
  | |- context [run E (applyAndRestart options gf kubeClient true vCluster) ?w'] =>
      destruct (applyAndRestart_lines E options gf kubeClient true vCluster w')
        as [Hdone [Hwake _]]
  end.
  cbn [app filter callOf isWakeUp isDone map].
  split; [| exact Hdone].
  now rewrite (filter_absent _ _ Hwake).
Qed.

(** X3 at a sleeping instance left sleeping. *)
Lemma left_sleeping_reported_pending_sleepy :
  let out := run (scripted quiet)
               (addVClusterHelm (someOptions false false) someFlags "sleepy"
                  sleepy {| clientsetId := 3 |}) 0 in
  map callOf (filter (fun ev => isWakeUp (callOf ev)) (trace out)) =
    [AskQuestion (wakeQuestion sleepy)] /\
  map callOf (filter (fun ev => isDone (callOf ev)) (trace out)) =
    [Log DoneLevel
       "Run 'vcluster wakeup --help' to learn how to wake up vCluster team-s/sleepy to complete the add operation."].
Proof.
  exact (left_sleeping_reported_pending (scripted quiet) 0
           (someOptions false false) someFlags "sleepy" sleepy
           {| clientsetId := 3 |} eq_refl eq_refl).
Defined.

(** X4: when the answer of the operator cannot be captured, the operation
    of the suspended target returns the cause wrapped under "failed to
    capture your response " right after the prompt: the instance is not
    woken, no platform secret is applied and no pod is deleted. *)
Theorem prompt_failure_stops_target :
  forall (E : Env) (w : World E) (options : AddVClusterOptions)
         (gf : GlobalFlags) (name : string) (vCluster : VCluster)
         (kubeClient : Clientset) (err : error),
    IsPaused vCluster = true ->
    answerOf E (AskQuestion (wakeQuestion vCluster))
      (after E (Log InfoLevel (sleepingNotice vCluster)) w) = inl err ->
    let out := run E (addVClusterHelm options gf name vCluster kubeClient) w in
    value out =
      Some (wrapError ("failed to capture your response " ++ Error err) err) /\
    map callOf (trace out) =
      [Log InfoLevel (sleepingNotice vCluster); AskQuestion (wakeQuestion vCluster)] /\
    existsb (fun ev => changesCluster (callOf ev)) (trace out) = false.
Proof.
  intros E w options gf name vCluster kubeClient err Hp Ha out. subst out.
  rewrite run_addVClusterHelm, (run_wakeIfPaused E gf name vCluster w Hp).
  cbv zeta. rewrite Ha. cbn [value world trace map callOf existsb changesCluster orb].
  unfold Errorf_w. now rewrite append_nil_r.
Qed.

(** X4 at a prompt that ends on EOF. *)
Lemma prompt_failure_stops_target_eof :
  let out := run (scripted promptFails)
               (addVClusterHelm (someOptions false true) someFlags "sleepy"
                  sleepy {| clientsetId := 3 |}) 0 in
  value out =
    Some (wrapError ("failed to capture your response " ++ "EOF")
            (errorString "EOF")) /\
  existsb (fun ev => changesCluster (callOf ev)) (trace out) = false.
Proof.
  pose proof (prompt_failure_stops_target (scripted promptFails) 0
                (someOptions false true) someFlags "sleepy" sleepy
                {| clientsetId := 3 |} (errorString "EOF") eq_refl eq_refl) as H.
  split; [exact (proj1 H) | exact (proj2 (proj2 H))].
Defined.

Lemma applyAnswer_absent (tr : list event) :
  forallb (fun ev => negb (isApplySecret (callOf ev))) tr = true ->
  filterMap applyAnswer tr = [].
Proof.
  intro H. apply filterMap_none. apply forallb_weaken with (2 := H).
  clear. intros [c r] H. destruct c; simpl in *; congruence.
Qed.

Lemma logs_no_apply (tr : list event) :
  forallb (fun ev => isLog (callOf ev)) tr = true ->
  filterMap applyAnswer tr = [].
Proof.
  intro H. apply applyAnswer_absent. apply forallb_weaken with (2 := H).
  clear. intros [c r] H. destruct c; simpl in *; congruence.
Qed.

(** X5: when the application of the platform secret fails, the target's
    operation returns that error as it is, not wrapped; no pod is deleted
    and no done line is written. *)
Theorem apply_failure_returned_as_is :
  forall (E : Env) (w : World E) (options : AddVClusterOptions)
         (gf : GlobalFlags) (name : string) (vCluster : VCluster)
         (kubeClient : Clientset) (err : error),
    let out := run E (addVClusterHelm options gf name vCluster kubeClient) w in
    In (Some err) (filterMap applyAnswer (trace out)) ->
    value out = Some err /\
    existsb (fun ev => isDeletePods (callOf ev)) (trace out) = false /\
    existsb (fun ev => isDone (callOf ev)) (trace out) = false.
Proof.
  intros E w options gf name vCluster kubeClient err out. subst out.
  rewrite run_addVClusterHelm. cbv zeta.
  destruct (wake_trace E gf name vCluster w) as [Hd [Ha _]].
  pose proof (wake_no_done E gf name vCluster w) as Hdone.
  destruct (value (run E (wakeIfPaused gf name vCluster) w))
    as [werr | [snoozed vCluster']]; cbn [value trace].
  - rewrite (applyAnswer_absent _ Ha). intros [].
  - destruct (applyAndRestart_shape E options gf kubeClient snoozed vCluster'
                (world (run E (wakeIfPaused gf name vCluster) w)))
      as [cfg [applyErr [tail [Ht Hcase]]]].
    rewrite Ht, filterMap_app, (applyAnswer_absent _ Ha), !existsb_app.
    rewrite (existsb_none _ _ Hd).
    cbn [app filterMap applyAnswer existsb callOf isDeletePods isDone orb].
    destruct applyErr as [aerr |].
    + destruct Hcase as [-> Hv]. cbn [filterMap]. intros [[= <-] | []].
      split; [exact Hv | split; [reflexivity |]].
      cbn [existsb]. rewrite orb_false_r.
      destruct (existsb _ _) eqn:He; [| reflexivity].
      apply existsb_exists in He. destruct He as [ev [Hin Hev]].
      assert (Hf : In ev (filter (fun ev => isDone (callOf ev))
                            (trace (run E (wakeIfPaused gf name vCluster) w))))
        by (apply filter_In; now split).
      rewrite Hdone in Hf. destruct Hf.
    + intro Hin. exfalso. destruct (Restart options).
      * destruct Hcase as [deleteErr [logs [-> [Hlogs _]]]].
        cbn [filterMap applyAnswer] in Hin.
        rewrite (logs_no_apply logs Hlogs) in Hin.
        destruct Hin as [H | []]. discriminate H.
      * destruct Hcase as [Hlogs _].
        rewrite (logs_no_apply tail Hlogs) in Hin.
        destruct Hin as [H | []]. discriminate H.
Qed.

(** X5 at an instance whose namespace refuses the platform secret. *)
Lemma apply_failure_returned_as_is_alpha :
  let out := run (scripted applyRefused)
               (addVClusterHelm (someOptions false true) someFlags "alpha" alpha
                  {| clientsetId := 1 |}) 0 in
  value out = Some (errorString "forbidden") /\
  existsb (fun ev => isDeletePods (callOf ev)) (trace out) = false /\
  existsb (fun ev => isDone (callOf ev)) (trace out) = false.
Proof.
  apply (apply_failure_returned_as_is (scripted applyRefused) 0
           (someOptions false true) someFlags "alpha" alpha
           {| clientsetId := 1 |} (errorString "forbidden")).
  simpl. left. reflexivity.
Defined.

(** How a poll ends: awake, on the error of a status query, or on the
    deadline after [ticks] answers of a suspended instance. *)
Lemma pollUntilAwake_outcome (E : Env) (ticks : nat) (gf : GlobalFlags)
    (name : string) :
  forall w : World E,
    let o := run E (pollUntilAwake ticks gf name) w in
    let query := GetVCluster (flags_Context gf) name (flags_Namespace gf) in
    length (trace o) <= ticks /\
    match value o with
    | inr vCluster =>
        IsPaused vCluster = false /\
        exists before, trace o = (before ++ [Ev query (inr vCluster)])%list /\
                       forallb stillSuspended before = true
    | inl err =>
        (err = deadlineExceededError /\ length (trace o) = ticks /\
         forallb stillSuspended (trace o) = true) \/
        (exists before, trace o = (before ++ [Ev query (inl err)])%list /\
                        forallb stillSuspended before = true)
    end.
Proof.
  induction ticks as [|ticks IH]; intro w.
  - cbn. split; [lia | left; now repeat split].
  - cbn [pollUntilAwake]. autounfold with collaborators. cbn [bind run].
    destruct (handle E (GetVCluster _ _ _) w) as [[err | vCluster] w1];
      cbn [bind run value world trace length].
    + split; [lia | right]. exists []. now split.
    + destruct (IsPaused vCluster) eqn:Hp; cbn [negb run value world trace length].
      * specialize (IH w1). cbv zeta in IH. destruct IH as [Hlen IH].
        split; [lia |].
        destruct (value (run E (pollUntilAwake ticks gf name) w1)) as [err | woken].
        -- destruct IH as [[-> [Hn Hs]] | [before [-> Hs]]].
           ++ left. repeat split; [now rewrite Hn |].
              cbn [forallb stillSuspended]. now rewrite Hp, Hs.
           ++ right. eexists (_ :: before). split; [reflexivity |].
              cbn [forallb stillSuspended]. now rewrite Hp, Hs.
        -- destruct IH as [Hw [before [-> Hs]]]. split; [exact Hw |].
           eexists (_ :: before). split; [reflexivity |].
           cbn [forallb stillSuspended]. now rewrite Hp, Hs.
      * split; [lia | split; [exact Hp |]]. exists []. now split.
Qed.

Lemma suspended_answers (tr : list event) :
  forallb stillSuspended tr = true ->
  length (filterMap statusAnswer tr) = length tr /\
  forallb answeredSuspended (filterMap statusAnswer tr) = true /\
  filterMap timeoutAnswer tr = [].
Proof.
  induction tr as [|[c r] tr IH]; [now repeat split |].
  cbn [forallb]. intro H. apply andb_true_iff in H. destruct H as [Hev Htr].
  destruct (IH Htr) as [Hlen [Hs Ht]].
  destruct c; try discriminate Hev.
  cbn [filterMap statusAnswer timeoutAnswer length forallb].
  destruct r as [err | vCluster]; [discriminate Hev |].
  cbn in Hev. cbn [answeredSuspended]. now rewrite Hlen, Hev, Hs, Ht.
Qed.

Lemma forallb_removelast {A} (f : A -> bool) (l : list A) :
  forallb f l = true -> forallb f (removelast l) = true.
Proof.
  induction l as [|a l IH]; [reflexivity |].
  cbn [forallb]. intro H. apply andb_true_iff in H. destruct H as [Ha Hl].
  destruct l as [|b l]; [reflexivity |].
  change (removelast (a :: b :: l)) with (a :: removelast (b :: l)).
  cbn [forallb]. now rewrite Ha, IH.
Qed.

(** The status answers of a poll: at most [ticks] of them, all but the
    last of a suspended instance; after a poll that ends awake the last
    answer is the instance returned. *)
Lemma pollUntilAwake_answers (E : Env) (ticks : nat) (gf : GlobalFlags)
    (name : string) (w : World E) :
  let o := run E (pollUntilAwake ticks gf name) w in
  let answers := filterMap statusAnswer (trace o) in
  length answers <= ticks /\
  forallb answeredSuspended (removelast answers) = true /\
  filterMap timeoutAnswer (trace o) = [] /\
  match value o with
  | inr vCluster =>
      IsPaused vCluster = false /\
      last answers (inl deadlineExceededError) = inr vCluster
  | inl _ => True
  end.
Proof.
  intros o answers. subst answers.
  pose proof (pollUntilAwake_outcome E ticks gf name w) as H.
  cbv zeta in H. fold o in H. destruct H as [Hlen H].
  destruct (value o) as [err | vCluster].
  - destruct H as [[_ [_ Hs]] | [before [Ht Hs]]].
    + destruct (suspended_answers _ Hs) as [Hl [Ha Hn]].
      rewrite Hl. repeat split; [exact Hlen | now apply forallb_removelast | exact Hn].
    + rewrite Ht in *. destruct (suspended_answers _ Hs) as [Hl [Ha Hn]].
      rewrite !filterMap_app, Hn. cbn [filterMap statusAnswer timeoutAnswer].
      rewrite removelast_last, length_app, Hl.
      rewrite length_app in Hlen. now repeat split.
  - destruct H as [Hp [before [Ht Hs]]].
    rewrite Ht in *. destruct (suspended_answers _ Hs) as [Hl [Ha Hn]].
    rewrite !filterMap_app, Hn. cbn [filterMap statusAnswer timeoutAnswer].
    rewrite removelast_last, last_last, length_app, Hl.
    rewrite length_app in Hlen. now repeat split.
Qed.

(** The status answers of the wake phase of one target. *)
Lemma wakeIfPaused_answers (E : Env) (gf : GlobalFlags) (name : string)
    (vCluster : VCluster) (w : World E) :
  let woke := run E (wakeIfPaused gf name vCluster) w in
  let answers := filterMap statusAnswer (trace woke) in
  length answers <= ticksGiven (filterMap timeoutAnswer (trace woke)) /\
  forallb answeredSuspended (removelast answers) = true /\
  match value woke with
  | inr (snoozed, vCluster') =>
      if snoozed then vCluster' = vCluster /\ answers = []
      else if IsPaused vCluster
           then IsPaused vCluster' = false /\
                last answers (inl deadlineExceededError) = inr vCluster'
           else vCluster' = vCluster /\ answers = []
  | inl _ => True
  end.
Proof.
  destruct (IsPaused vCluster) eqn:Hp.
  - rewrite (run_wakeIfPaused E gf name vCluster w Hp). cbv zeta.
    destruct (answerOf E (AskQuestion (wakeQuestion vCluster))
                (after E (Log InfoLevel (sleepingNotice vCluster)) w))
      as [err | answer]; [cbn; repeat split; lia |].
    destruct (String.eqb answer snoozeConfirmation); [cbn; repeat split; lia |].
    rewrite run_wakeAndWait.
    destruct (handle E (ResumeHelm gf name) _) as [[err |] w1];
      [cbn; repeat split; lia |].
    destruct (handle E Timeout w1) as [ticks w2]. cbv zeta.
    cbn [value world trace filterMap statusAnswer timeoutAnswer ticksGiven].
    destruct (pollUntilAwake_answers E ticks gf name w2) as [Hlen [Hs [Ht Hv]]].
    split; [exact Hlen | split; [exact Hs |]].
    now destruct (value (run E (pollUntilAwake ticks gf name) w2)).
  - unfold wakeIfPaused. rewrite Hp. cbn. repeat split; lia.
Qed.

Lemma no_wakeup_answers (tr : list event) :
  existsb (fun ev => isWakeUp (callOf ev)) tr = false ->
  filterMap statusAnswer tr = [] /\ filterMap timeoutAnswer tr = [].
Proof.
  intro H. split; apply filterMap_none;
    (induction tr as [|[c r] tr IH]; [reflexivity |]);
    cbn [existsb] in H; apply orb_false_iff in H; destruct H as [Hc Htr];
    cbn [forallb]; rewrite (IH Htr), andb_true_r; now destruct c.
Qed.

(** X6: the status of a target is polled at most as many times as
    [clihelper.Timeout] gave ticks, and not at all when the timeout was
    never asked; every answer but the last shows the instance suspended:
    the poll ends on the first answer that is an error or an instance that
    is awake. *)
Theorem status_polls_bounded :
  forall (E : Env) (w : World E) (options : AddVClusterOptions)
         (gf : GlobalFlags) (name : string) (vCluster : VCluster)
         (kubeClient : Clientset),
    let out := run E (addVClusterHelm options gf name vCluster kubeClient) w in
    let answers := filterMap statusAnswer (trace out) in
    length answers <= ticksGiven (filterMap timeoutAnswer (trace out)) /\
    forallb answeredSuspended (removelast answers) = true.
Proof.
  intros E w options gf name vCluster kubeClient out answers.
  subst answers out. rewrite run_addVClusterHelm. cbv zeta.
  destruct (wakeIfPaused_answers E gf name vCluster w) as [Hlen [Hs _]].
  destruct (value (run E (wakeIfPaused gf name vCluster) w))
    as [err | [snoozed vCluster']]; cbn [trace]; [now split |].
  match goal with
  | |- context [run E (applyAndRestart options gf kubeClient snoozed vCluster') ?w'] =>
      destruct (applyAndRestart_lines E options gf kubeClient snoozed vCluster' w')
        as [_ [Hwake _]]
  end.
  destruct (no_wakeup_answers _ Hwake) as [Hna Hnt].
  rewrite !filterMap_app, Hna, Hnt, !app_nil_r. now split.
Qed.

(** What [applyAndRestart] applies and deletes. *)
Lemma applyAndRestart_effects (E : Env) (options : AddVClusterOptions)
    (gf : GlobalFlags) (kubeClient : Clientset) (snoozed : bool)
    (vCluster : VCluster) (w : World E) :
  let o := run E (applyAndRestart options gf kubeClient snoozed vCluster) w in
  exists cfg : CLIConfig,
    map callOf (filter (fun ev => isApplySecret (callOf ev)) (trace o)) =
    [ApplyPlatformSecret cfg kubeClient (ImportName options)
       (Namespace vCluster) (Project options) (AccessKey options)
       (Host options) (Insecure options) (CertificateAuthorityData options)] /\
    map callOf (filter (fun ev => isDeletePods (callOf ev)) (trace o)) =
    if Restart options && existsb applySucceeded (trace o)
    then [DeletePods kubeClient ("app=vcluster,release=" ++ Name vCluster)
            (Namespace vCluster)]
    else [].
Proof.
  intro o. subst o.
  destruct (applyAndRestart_shape E options gf kubeClient snoozed vCluster w)
    as [cfg [applyErr [tail [Ht Hcase]]]].
  rewrite Ht. exists cfg.
  destruct applyErr as [err |];
    cbn [app filter existsb callOf isApplySecret isDeletePods orb map
         applySucceeded applyAnswer].
  - destruct Hcase as [-> _]. cbn [existsb filter map]. rewrite andb_false_r.
    now split.
  - rewrite andb_true_r. destruct (Restart options).
    + destruct Hcase as [deleteErr [logs [-> [Hlogs _]]]].
      destruct (logs_trace logs Hlogs) as [Hf [_ [_ Hd]]].
      cbn [filter callOf isApplySecret isDeletePods map]. rewrite Hf, Hd.
      now split.
    + destruct Hcase as [Hlogs _].
      destruct (logs_trace tail Hlogs) as [Hf [_ [_ Hd]]].
      rewrite Hf, Hd. now split.
Qed.

Lemma wakeIfPaused_not_snoozed (E : Env) (gf : GlobalFlags) (name : string)
    (vCluster : VCluster) (w : World E) (answer : string) :
  IsPaused vCluster = true ->
  answerOf E (AskQuestion (wakeQuestion vCluster))
    (after E (Log InfoLevel (sleepingNotice vCluster)) w) = inr answer ->
  answer <> snoozeConfirmation ->
  forall (snoozed : bool) (vCluster' : VCluster),
    value (run E (wakeIfPaused gf name vCluster) w) = inr (snoozed, vCluster') ->
    snoozed = false.
Proof.
  intros Hp Ha Hn snoozed vCluster'.
  rewrite (run_wakeIfPaused E gf name vCluster w Hp). cbv zeta. rewrite Ha.
  apply String.eqb_neq in Hn. rewrite Hn. cbn [value].
  destruct (value (run E (wakeAndWait gf name) _)); [discriminate |].
  now intros [= <- _].
Qed.

(** X7: a suspended target that is woken is registered as the instance
    the last status query returned, not as the one that was resolved: when
    its operation reaches the platform secret, that instance is awake, the
    secret is applied in its namespace, the pod deletion selects its name
    in its namespace, and a success is reported under its namespace and
    name. *)
Theorem woken_target_is_the_one_fetched :
  forall (E : Env) (w : World E) (options : AddVClusterOptions)
         (gf : GlobalFlags) (name : string) (vCluster : VCluster)
         (kubeClient : Clientset) (answer : string),
    IsPaused vCluster = true ->
    answerOf E (AskQuestion (wakeQuestion vCluster))
      (after E (Log InfoLevel (sleepingNotice vCluster)) w) = inr answer ->
    answer <> snoozeConfirmation ->
    let out := run E (addVClusterHelm options gf name vCluster kubeClient) w in
    existsb (fun ev => isApplySecret (callOf ev)) (trace out) = true ->
    exists (fetched : VCluster) (cfg : CLIConfig),
      last (filterMap statusAnswer (trace out)) (inl deadlineExceededError) =
        inr fetched /\
      IsPaused fetched = false /\
      map callOf (filter (fun ev => isApplySecret (callOf ev)) (trace out)) =
        [ApplyPlatformSecret cfg kubeClient (ImportName options)
           (Namespace fetched) (Project options) (AccessKey options)
           (Host options) (Insecure options) (CertificateAuthorityData options)] /\
      map callOf (filter (fun ev => isDeletePods (callOf ev)) (trace out)) =
        (if Restart options && existsb applySucceeded (trace out)
         then [DeletePods kubeClient ("app=vcluster,release=" ++ Name fetched)
                 (Namespace fetched)]
         else []) /\
      map callOf (filter (fun ev => isDone (callOf ev)) (trace out)) =
        match value out with
        | Some _ => []
        | None =>
            [Log DoneLevel ("Successfully added vCluster " ++ Namespace fetched ++
                            "/" ++ Name fetched)]
        end.
Proof.
  intros E w options gf name vCluster kubeClient answer Hp Ha Hn out.
  subst out. rewrite run_addVClusterHelm. cbv zeta.
  destruct (wake_trace E gf name vCluster w) as [Hd [Hap Hs]].
  pose proof (wake_no_done E gf name vCluster w) as Hdone.
  pose proof (wakeIfPaused_not_snoozed E gf name vCluster w answer Hp Ha Hn) as Hsn.
  destruct (wakeIfPaused_answers E gf name vCluster w) as [_ [_ Hv]].
  destruct (value (run E (wakeIfPaused gf name vCluster) w))
    as [err | [snoozed fetched]]; cbn [value trace].
  - rewrite (existsb_none _ _ Hap). discriminate.
  - intros _. rewrite (Hsn snoozed fetched eq_refl) in *. rewrite Hp in Hv.
    destruct Hv as [Hawake Hlast].
    set (w' := world (run E (wakeIfPaused gf name vCluster) w)).
    destruct (applyAndRestart_lines E options gf kubeClient false fetched w')
      as [Hlines [Hwake _]].
    destruct (applyAndRestart_effects E options gf kubeClient false fetched w')
      as [cfg [Heff Hdel]].
    destruct (no_wakeup_answers _ Hwake) as [Hna _].
    exists fetched, cfg.
    rewrite filterMap_app, Hna, app_nil_r, !filter_app, existsb_app.
    rewrite (filter_none _ _ Hap), (filter_none _ _ Hd), (existsb_none _ _ Hs), Hdone.
    cbn [app orb].
    repeat split; assumption.
Qed.

(** X7 at an instance found awake in another namespace by the second
    status query. *)
Lemma woken_target_is_the_one_fetched_moved :
  let out := run (scripted wakesElsewhere)
               (addVClusterHelm (someOptions false true) someFlags "sleepy"
                  sleepy {| clientsetId := 3 |}) 0 in
  exists (fetched : VCluster) (cfg : CLIConfig),
    last (filterMap statusAnswer (trace out)) (inl deadlineExceededError) =
      inr fetched /\
    IsPaused fetched = false /\
    map callOf (filter (fun ev => isApplySecret (callOf ev)) (trace out)) =
      [ApplyPlatformSecret cfg {| clientsetId := 3 |} "" (Namespace fetched)
         "default" "key" "https://platform" false []] /\
    map callOf (filter (fun ev => isDeletePods (callOf ev)) (trace out)) =
      (if true && existsb applySucceeded (trace out)
       then [DeletePods {| clientsetId := 3 |}
               ("app=vcluster,release=" ++ Name fetched) (Namespace fetched)]
       else []) /\
    map callOf (filter (fun ev => isDone (callOf ev)) (trace out)) =
      match value out with
      | Some _ => []
      | None =>
          [Log DoneLevel ("Successfully added vCluster " ++ Namespace fetched ++
                          "/" ++ Name fetched)]
      end.
Proof.
  assert (Hn : wakeNow <> snoozeConfirmation) by discriminate.
  exact (woken_target_is_the_one_fetched (scripted wakesElsewhere) 0
           (someOptions false true) someFlags "sleepy" sleepy
           {| clientsetId := 3 |} wakeNow eq_refl eq_refl Hn eq_refl).
Defined.

(** ** Further properties of the resolution and of the batch *)

Lemma listInNamespaces_resolve (gf : GlobalFlags) (namespaces : list string) :
  forall vClusters : list VCluster,
    callsOnly (fun c => resolveCall c && byFlags gf c)
      (listInNamespaces gf namespaces vClusters).
Proof.
  induction namespaces as [|ns namespaces IH]; intro vClusters; [exact I |].
  cbn [listInNamespaces]. calls_only; try apply IH.
  now rewrite String.eqb_refl.
Qed.

Lemma resolveVClusters_calls (options : AddVClusterOptions) (gf : GlobalFlags)
    (name : string) :
  callsOnly (fun c => resolveCall c && byFlags gf c)
    (resolveVClusters options gf name).
Proof.
  unfold resolveVClusters. calls_only; try apply listInNamespaces_resolve;
    now rewrite ?String.eqb_refl.
Qed.

(** A property of calls that holds in the resolution, in every target's
    operation and for the bootstrap connection and the log holds in the
    whole registration. *)
Lemma AddVClusterHelm_calls_within (P : call -> bool)
    (options : AddVClusterOptions) (gf : GlobalFlags) (name : string) :
  callsOnly P (resolveVClusters options gf name) ->
  (forall (vCluster : VCluster) (kubeClient : Clientset),
     callsOnly P (addVClusterHelm options gf (Name vCluster) vCluster kubeClient)) ->
  (forall lvl msg, P (Log lvl msg) = true) ->
  (forall factory, P (FactoryClientConfig factory) = true) ->
  (forall cfg, P (NewForConfig cfg) = true) ->
  callsOnly P (AddVClusterHelm options gf name).
Proof.
  intros Hresolve Htarget Hlog Hfactory Hclient. unfold AddVClusterHelm.
  apply callsOnly_bind; [exact Hresolve |].
  intros [err | vClusters]; [exact I |].
  destruct vClusters as [|first rest]; [exact I |].
  unfold addResolved. autounfold with collaborators. cbn [bind callsOnly].
  split; [apply Hfactory |]. intros [err | restConfig]; [exact I |].
  cbn [bind callsOnly]. split; [apply Hclient |].
  intros [err | kubeClient]; [exact I |].
  cbn [bind callsOnly]. split; [apply Hlog |]. intros _.
  change (Call (Log InfoLevel (addingNotice first)) _) with
    (bind (addEach options gf kubeClient (first :: rest) [])
       (fun errs => Ret (CombinedError errs))).
  apply callsOnly_bind; [| intro; exact I].
  generalize (@nil error) as errs. generalize (first :: rest) as vClusters.
  induction vClusters as [|vCluster vClusters IH]; intro errs; [exact I |].
  cbn [addEach]. unfold Infof, perform. cbn [bind callsOnly].
  split; [apply Hlog |]. intros _.
  apply callsOnly_bind; [apply Htarget | intro; apply IH].
Qed.

Lemma addVClusterHelm_byFlags (options : AddVClusterOptions) (gf : GlobalFlags)
    (vCluster : VCluster) (kubeClient : Clientset) :
  callsOnly (byFlags gf)
    (addVClusterHelm options gf (Name vCluster) vCluster kubeClient).
Proof.
  unfold addVClusterHelm. apply callsOnly_bind.
  - apply callsOnly_weaken with
      (2 := wakeIfPaused_steps gf (Name vCluster) vCluster).
    intros c H. destruct c; try discriminate H; try reflexivity.
    cbn in *. apply andb_true_iff in H. destruct H as [H Hns].
    apply andb_true_iff in H. destruct H as [Hctx _]. now rewrite Hctx, Hns.
  - intros [err | [snoozed vCluster']]; [exact I |].
    unfold applyAndRestart, reportAdded. calls_only.
Qed.

(** X8: in the whole registration every lookup of instances is made in
    the context of the global flags; every listing is made without a name
    filter; and every query for a single instance, the status polls of a
    woken target included, is made in the namespace of the global flags,
    whatever namespace the target was found in. *)
Theorem lookups_by_global_flags :
  forall (E : Env) (w : World E) (options : AddVClusterOptions)
         (gf : GlobalFlags) (name : string),
    forallb (fun ev => byFlags gf (callOf ev))
      (trace (run E (AddVClusterHelm options gf name) w)) = true.
Proof.
  intros E w options gf name. apply callsOnly_run.
  apply AddVClusterHelm_calls_within.
  - apply callsOnly_weaken with (2 := resolveVClusters_calls options gf name).
    intros c H. apply andb_true_iff in H. apply H.
  - intros vCluster kubeClient. apply addVClusterHelm_byFlags.
  - reflexivity.
  - reflexivity.
  - reflexivity.
Qed.

(** X9: without the restart flag the registration deletes no pod, for
    no target and in neither mode. *)
Theorem no_restart_without_flag :
  forall (E : Env) (w : World E) (options : AddVClusterOptions)
         (gf : GlobalFlags) (name : string),
    Restart options = false ->
    existsb (fun ev => isDeletePods (callOf ev))
      (trace (run E (AddVClusterHelm options gf name) w)) = false.
Proof.
  intros E w options gf name Hr. apply existsb_none.
  apply callsOnly_run with (P := fun c => negb (isDeletePods c)).
  apply AddVClusterHelm_calls_within; try reflexivity.
  - apply callsOnly_weaken with (2 := resolveVClusters_calls options gf name).
    intros c H. now destruct c.
  - intros vCluster kubeClient. unfold addVClusterHelm. apply callsOnly_bind.
    + apply callsOnly_weaken with
        (2 := wakeIfPaused_steps gf (Name vCluster) vCluster).
      intros c H. now destruct c.
    + intros [err | [snoozed vCluster']]; [exact I |].
      unfold applyAndRestart, reportAdded. rewrite Hr. calls_only.
Qed.

(** X9 at a cluster with a sleeping and a running instance. *)
Lemma no_restart_without_flag_two :
  existsb (fun ev => isDeletePods (callOf ev))
    (trace (run (scripted (oneUnreachable [sleepy; alpha]))
              (AddVClusterHelm (someOptions true false) someFlags "") 0)) = false.
Proof.
  exact (no_restart_without_flag (scripted (oneUnreachable [sleepy; alpha])) 0
           (someOptions true false) someFlags "" eq_refl).
Defined.

(** X10: an error of the resolution, be it the enumeration of the
    namespaces, a listing in one of them or the lookup of the named
    instance, is returned by the registration as it is; the registration
    ends with the resolution, on no partial list of targets: it constructs
    no connection from a client factory, asks nothing, and changes nothing
    in the cluster. *)
Theorem resolution_error_aborts :
  forall (E : Env) (w : World E) (options : AddVClusterOptions)
         (gf : GlobalFlags) (name : string) (err : error),
    value (run E (resolveVClusters options gf name) w) = inl err ->
    let out := run E (AddVClusterHelm options gf name) w in
    value out = Some err /\
    trace out = trace (run E (resolveVClusters options gf name) w) /\
    forallb (fun ev => resolveCall (callOf ev)) (trace out) = true.
Proof.
  intros E w options gf name err H out. subst out.
  unfold AddVClusterHelm. rewrite run_bind. cbv zeta. rewrite H.
  cbn [run value trace]. rewrite app_nil_r. repeat split.
  apply forallb_weaken with
    (2 := callsOnly_run E _ _ w (resolveVClusters_calls options gf name)).
  intros ev Hev. apply andb_true_iff in Hev. apply Hev.
Qed.

(** X10 at a cluster where the first namespace holds an instance and the
    listing of the second fails. *)
Lemma resolution_error_aborts_second_listing :
  let out := run (scripted listingFails)
               (AddVClusterHelm (someOptions true true) someFlags "") 0 in
  value out = Some (errorString "list: forbidden") /\
  existsb (fun ev => changesCluster (callOf ev)) (trace out) = false.
Proof.
  split; [| reflexivity].
  exact (proj1 (resolution_error_aborts (scripted listingFails) 0
                  (someOptions true true) someFlags ""
                  (errorString "list: forbidden") eq_refl)).
Defined.

Lemma listInNamespaces_found (E : Env) (gf : GlobalFlags)
    (namespaces : list string) :
  forall (vClusters : list VCluster) (w : World E) (found : list VCluster),
    let o := run E (listInNamespaces gf namespaces vClusters) w in
    value o = inr found ->
    map fst (filterMap listing (trace o)) = namespaces /\
    found = (vClusters ++ concat (filterMap listed (trace o)))%list /\
    filterMap namespacesAnswer (trace o) = [].
Proof.
  induction namespaces as [|ns namespaces IH]; intros vClusters w found.
  - cbn. intros [= <-]. now rewrite app_nil_r.
  - cbn [listInNamespaces]. autounfold with collaborators. cbn [bind run].
    destruct (handle E (Log InfoLevel _) w) as [[] w1].
    cbn [bind run value world trace].
    destruct (handle E (ListVClusters _ _ _) w1) as [[err | inNamespace] w2];
      cbn [bind run value world trace]; [discriminate |].
    destruct inNamespace as [|vCluster inNamespace]; cbn [length Nat.eqb bind run].
    + destruct (handle E (Log InfoLevel _) w2) as [[] w3].
      cbn [value world trace]. intro H.
      destruct (IH vClusters w3 found H) as [Hns [Hfound Hn]].
      cbn [filterMap listing listed namespacesAnswer callOf map fst concat app].
      now rewrite Hns, Hn.
    + cbn [value world trace]. intro H.
      destruct (IH _ w2 found H) as [Hns [Hfound Hn]].
      cbn [filterMap listing listed namespacesAnswer callOf map fst concat].
      rewrite Hns, Hn, Hfound. now rewrite <- app_assoc.
Qed.

(** X11: in the mode for all instances, a resolution that succeeds lists
    every namespace the enumeration returned, once and in that order, and
    its targets are the instances of these listings put one after the
    other in that order; a namespace without instances adds nothing. *)
Theorem all_targets_in_listing_order :
  forall (E : Env) (w : World E) (options : AddVClusterOptions)
         (gf : GlobalFlags) (name : string) (found : list VCluster),
    All options = true ->
    let o := run E (resolveVClusters options gf name) w in
    value o = inr found ->
    exists namespaces : list string,
      filterMap namespacesAnswer (trace o) = [inr namespaces] /\
      map fst (filterMap listing (trace o)) = namespaces /\
      found = concat (filterMap listed (trace o)).
Proof.
  intros E w options gf name found Hall o. subst o.
  unfold resolveVClusters. rewrite Hall.
  autounfold with collaborators. cbn [bind run].
  destruct (handle E (Log DebugLevel _) w) as [[] w1].
  cbn [bind run value world trace].
  destruct (handle E (HostClientConfig _) w1) as [[err | restConfig] w2];
    cbn [bind run value world trace]; [discriminate |].
  destruct (handle E (NewForConfig restConfig) w2) as [[err | kubeClient] w3];
    cbn [bind run value world trace]; [discriminate |].
  destruct (handle E (NamespacesList kubeClient) w3) as [[err | namespaces] w4];
    cbn [bind run value world trace]; [discriminate |].
  destruct (handle E (Log DebugLevel _) w4) as [[] w5].
  cbn [value world trace]. intro H.
  destruct (listInNamespaces_found E gf namespaces [] w5 found H)
    as [Hns [Hfound Hn]].
  exists namespaces.
  cbn [filterMap listing listed namespacesAnswer callOf].
  now rewrite Hn, Hns.
Qed.

(** X11 at three namespaces, the second without instances. *)
Lemma all_targets_in_listing_order_three :
  let o := run (scripted threeNamespaces)
             (resolveVClusters (someOptions true false) someFlags "") 0 in
  value o = inr [alpha; beta; sleepy] /\
  exists namespaces : list string,
    filterMap namespacesAnswer (trace o) = [inr namespaces] /\
    map fst (filterMap listing (trace o)) = namespaces /\
    [alpha; beta; sleepy] = concat (filterMap listed (trace o)).
Proof.
  split; [reflexivity |].
  exact (all_targets_in_listing_order (scripted threeNamespaces) 0
           (someOptions true false) someFlags "" [alpha; beta; sleepy]
           eq_refl eq_refl).
Defined.

(** X12: the batch loop over two lists of targets put together is the
    loop over the first followed by the loop over the second, started in
    the state and with the errors the first leaves: what happens to one
    target never changes which targets follow. *)
Theorem batch_of_appended_targets :
  forall (E : Env) (options : AddVClusterOptions) (gf : GlobalFlags)
         (kubeClient : Clientset) (first second : list VCluster)
         (errs : VClusterAddError) (w : World E),
    let one := run E (addEach options gf kubeClient first errs) w in
    let two := run E (addEach options gf kubeClient second (value one)) (world one) in
    run E (addEach options gf kubeClient (first ++ second) errs) w =
    {| value := value two; world := world two;
       trace := (trace one ++ trace two)%list |}.
Proof.
  intros E options gf kubeClient first second.
  induction first as [|vCluster first IH]; intros errs w.
  - cbn. now destruct (run E (addEach options gf kubeClient second errs) w).
  - cbn [app]. rewrite !run_addEach_cons. cbv zeta. rewrite IH. cbv zeta.
    cbn [value world trace]. now rewrite app_assoc.
Qed.

Lemma target_done_lines (E : Env) (options : AddVClusterOptions)
    (gf : GlobalFlags) (name : string) (vCluster : VCluster)
    (kubeClient : Clientset) (w : World E) :
  let out := run E (addVClusterHelm options gf name vCluster kubeClient) w in
  length (filter (fun ev => isDone (callOf ev)) (trace out)) =
  match value out with None => 1 | Some _ => 0 end.
Proof.
  intro out. subst out. rewrite run_addVClusterHelm. cbv zeta.
  pose proof (wake_no_done E gf name vCluster w) as Hdone.
  destruct (value (run E (wakeIfPaused gf name vCluster) w))
    as [err | [snoozed vCluster']]; cbn [value trace].
  - now rewrite Hdone.
  - rewrite filter_app, Hdone. cbn [app].
    match goal with
    | |- context [run E (applyAndRestart options gf kubeClient snoozed vCluster') ?w'] =>
        destruct (applyAndRestart_lines E options gf kubeClient snoozed vCluster' w')
          as [Hlines _]
    end.
    rewrite <- (length_map callOf), Hlines.
    now destruct (value _).
Qed.

(** X13: the batch loop accounts for every target: it keeps the errors it
    was given, in front and unchanged, and each target adds either one
    recorded error or one done line, never both and never neither; so the
    new errors combine to nil exactly when there are as many done lines as
    targets. *)
Theorem batch_accounts_for_every_target :
  forall (E : Env) (options : AddVClusterOptions) (gf : GlobalFlags)
         (kubeClient : Clientset) (vClusters : list VCluster)
         (errs : VClusterAddError) (w : World E),
    let batch := run E (addEach options gf kubeClient vClusters errs) w in
    exists recorded : list error,
      value batch = (errs ++ recorded)%list /\
      length recorded +
        length (filter (fun ev => isDone (callOf ev)) (trace batch)) =
        length vClusters /\
      (CombinedError recorded = None <->
       length (filter (fun ev => isDone (callOf ev)) (trace batch)) =
       length vClusters).
Proof.
  intros E options gf kubeClient vClusters.
  assert (H : forall (errs : VClusterAddError) (w : World E),
             exists recorded : list error,
               value (run E (addEach options gf kubeClient vClusters errs) w) =
                 (errs ++ recorded)%list /\
               length recorded +
                 length (filter (fun ev => isDone (callOf ev))
                           (trace (run E (addEach options gf kubeClient vClusters errs) w))) =
                 length vClusters).
  { induction vClusters as [|vCluster vClusters IH]; intros errs w.
    - exists []. cbn. now rewrite app_nil_r.
    - rewrite run_addEach_cons. cbv zeta. cbn [value trace filter callOf isDone].
      rewrite filter_app, length_app.
      pose proof (target_done_lines E options gf (Name vCluster) vCluster
                    kubeClient (after E (Log InfoLevel (addingNotice vCluster)) w))
        as Hone. cbv zeta in Hone. rewrite Hone.
      destruct (IH (addErr errs (Name vCluster)
                      (value (run E (addVClusterHelm options gf (Name vCluster)
                                       vCluster kubeClient)
                                (after E (Log InfoLevel (addingNotice vCluster)) w))))
                  (world (run E (addVClusterHelm options gf (Name vCluster)
                                   vCluster kubeClient)
                            (after E (Log InfoLevel (addingNotice vCluster)) w))))
        as [recorded [Hv Hl]].
      rewrite Hv.
      destruct (value (run E (addVClusterHelm options gf (Name vCluster) vCluster
                                kubeClient) _)) as [err |]; cbn [addErr] in *.
      + eexists (_ :: recorded). rewrite <- app_assoc. split; [reflexivity |].
        cbn [length]. lia.
      + exists recorded. split; [reflexivity |]. cbn [length]. lia. }
  intros errs w batch. subst batch.
  destruct (H errs w) as [recorded [Hv Hl]].
  exists recorded. split; [exact Hv | split; [exact Hl |]].
  rewrite CombinedError_nil_iff. split.
  - intros ->. cbn [length] in Hl. lia.
  - intro Hd. rewrite Hd in Hl. destruct recorded; [reflexivity | cbn in Hl; lia].
Qed.

(** ** The backup command *)

Import platform.

(** C10: when the platform is not found in the namespace and the prompt is
    answered, without error, with anything but "Yes", the command returns
    nil after the prompt: nothing is collected, serialized or written. *)
Theorem backup_declined :
  forall (Replace : string -> string) (Sprintf : string -> string -> string)
         (E : Env) (w : World E)
         (cmd : BackupCmd) (kubeConfig : RestConfig) (kubeClient : Clientset)
         (answer : string),
    let w1 := after E (HostClientConfig "") w in
    let w2 := after E (NewForConfig kubeConfig) w1 in
    let w3 := after E (IsLoftAlreadyInstalled kubeClient (Namespace cmd)) w2 in
    let prompt := AskQuestion (continueQuestion Replace Sprintf cmd) in
    answerOf E (HostClientConfig "") w = inr kubeConfig ->
    answerOf E (NewForConfig kubeConfig) w1 = inr kubeClient ->
    answerOf E (IsLoftAlreadyInstalled kubeClient (Namespace cmd)) w2 = inr false ->
    answerOf E prompt w3 = inr answer ->
    answer <> "Yes" ->
    let out := run E (BackupCmd_run Replace Sprintf cmd) w in
    value out = None /\
    world out = after E prompt w3 /\
    trace out =
      [Ev (HostClientConfig "") (inr kubeConfig);
       Ev (NewForConfig kubeConfig) (inr kubeClient);
       Ev (IsLoftAlreadyInstalled kubeClient (Namespace cmd)) (inr false);
       Ev prompt (inr answer)] /\
    filterMap collectAnswer (trace out) = [] /\
    filterMap yamlAnswer (trace out) = [] /\
    filterMap fileWrite (trace out) = [].
Proof.
  intros Replace Sprintf E w cmd kubeConfig kubeClient answer w1 w2 w3 prompt
    H1 H2 H3 H4 Hn out.
  assert (Hout : out =
                 {| value := None; world := after E prompt w3;
                    trace := [Ev (HostClientConfig "") (inr kubeConfig);
                              Ev (NewForConfig kubeConfig) (inr kubeClient);
                              Ev (IsLoftAlreadyInstalled kubeClient (Namespace cmd))
                                (inr false);
                              Ev prompt (inr answer)] |}).
  { subst out. unfold BackupCmd_run, perform. cbn [bind run].
    rewrite (handle_eta E (HostClientConfig "") w), H1. fold w1.
    cbn [bind run value world trace].
    rewrite (handle_eta E (NewForConfig kubeConfig) w1), H2. fold w2.
    cbn [bind run value world trace].
    rewrite (handle_eta E (IsLoftAlreadyInstalled kubeClient (Namespace cmd)) w2), H3.
    fold w3. cbn [bind run value world trace negb]. fold prompt.
    rewrite (handle_eta E prompt w3), H4.
    apply String.eqb_neq in Hn. rewrite Hn.
    reflexivity. }
  rewrite Hout. now repeat split.
Qed.

(** C10 at a cluster without the platform and an operator who answers
    "No". *)
Lemma backup_declined_no :
  let out := run (scripted declined)
               (BackupCmd_run (fun s => s) someSprintf someBackup) 0 in
  value out = None /\
  filterMap collectAnswer (trace out) = [] /\
  filterMap fileWrite (trace out) = [].
Proof.
  assert (Hn : "No" <> "Yes") by discriminate.
  pose proof (backup_declined (fun s => s) someSprintf (scripted declined) 0
                someBackup {| restConfigId := 0 |} {| clientsetId := 0 |} "No"
                eq_refl eq_refl eq_refl eq_refl Hn) as H.
  split; [exact (proj1 H) | split].
  - exact (proj1 (proj2 (proj2 (proj2 H)))).
  - exact (proj2 (proj2 (proj2 (proj2 (proj2 H))))).
Defined.

Lemma run_forEach_log (E : Env) {T} (lvl : level) (text : T -> string)
    (xs : list T) :
  forall w : World E,
    trace (run E (forEach xs (fun x => perform (Log lvl (text x)))) w) =
    map (fun x => Ev (Log lvl (text x)) tt) xs.
Proof.
  induction xs as [|x xs IH]; intro w; [reflexivity |].
  cbn [forEach]. unfold perform at 1. cbn [bind run].
  destruct (handle E (Log lvl (text x)) w) as [[] w1].
  cbn [trace map]. now rewrite IH.
Qed.

Lemma logs_backup (tr : list event) :
  forallb (fun ev => isLog (callOf ev)) tr = true ->
  filterMap collectAnswer tr = [] /\
  filterMap yamlAnswer tr = [] /\
  filterMap fileWrite tr = [].
Proof.
  intro H. repeat split; apply filterMap_none;
    apply forallb_weaken with (2 := H); clear; intros [c r] H;
    destruct c; simpl in *; congruence.
Qed.

Lemma log_lines (lvl : level) {T} (text : T -> string) (xs : list T) :
  forallb (fun ev => isLog (callOf ev))
    (map (fun x => Ev (Log lvl (text x)) tt) xs) = true /\
  filterMap warnLine (map (fun x => Ev (Log lvl (text x)) tt) xs) =
  match lvl with WarnLevel => map text xs | _ => [] end.
Proof.
  induction xs as [|x xs [IH1 IH2]]; [now destruct lvl |].
  split; [exact IH1 |]. cbn [map filterMap]. unfold warnLine at 1.
  cbn [callOf]. rewrite IH2. now destruct lvl.
Qed.

(** The events [writeBackup] leaves. *)
Lemma writeBackup_shape (E : Env) (cmd : BackupCmd) (objects : list Object)
    (w : World E) :
  let o := run E (writeBackup cmd objects) w in
  filterMap collectAnswer (trace o) = [] /\
  filterMap warnLine (trace o) = [] /\
  exists r : result (list Byte.byte),
    filterMap yamlAnswer (trace o) = [(objects, r)] /\
    match r with
    | inl err => value o = Some err /\ filterMap fileWrite (trace o) = []
    | inr backupBytes =>
        filterMap fileWrite (trace o) =
        [(Filename cmd, backupBytes, mode_0644, value o)]
    end.
Proof.
  unfold writeBackup, perform. cbn [bind run].
  destruct (handle E (ToYAML objects) w) as [[err | backupBytes] w1];
    cbn [bind run value world trace].
  - repeat split. exists (inl err). now repeat split.
  - destruct (handle E (Log InfoLevel _) w1) as [[] w2].
    cbn [bind run value world trace].
    destruct (handle E (WriteFile _ _ _) w2) as [[err |] w3];
      cbn [bind run value world trace].
    + repeat split. exists (inr backupBytes). now split.
    + destruct (handle E (Log DoneLevel _) w3) as [[] w4].
      cbn [bind run value world trace].
      repeat split. exists (inr backupBytes). now split.
Qed.


(** ** Further properties of the backup command *)

Lemma forEach_calls {T} (P : call -> bool) (xs : list T) (body : T -> prog unit) :
  (forall x, callsOnly P (body x)) -> callsOnly P (forEach xs body).
Proof.
  intro H. induction xs as [|x xs IH]; [exact I |].
  cbn [forEach]. apply callsOnly_bind; [apply H | intro; exact IH].
Qed.

Lemma collectAndWrite_calls (cmd : BackupCmd) (kubeConfig : RestConfig) :
  callsOnly (fun c => backupCall cmd c && collectCall c)
    (collectAndWrite cmd kubeConfig).
Proof.
  unfold collectAndWrite, writeBackup.
  repeat (autounfold with collaborators; simpl;
          match goal with
          | |- callsOnly _ (bind (forEach _ _) _) =>
              apply callsOnly_bind; [apply forEach_calls; intro | intro]
          | |- callsOnly _ (bind _ _) => apply callsOnly_bind; [| intro]
          | |- callsOnly _ (match ?x with _ => _ end) => destruct x
          | |- _ /\ _ => split
          | |- forall _, _ => intro
          | |- True => exact I
          | |- _ = _ => reflexivity
          end).
  - now destruct (list_eq_dec string_dec (Skip cmd) (Skip cmd)).
  - now rewrite String.eqb_refl.
Qed.

(** X14: whatever the answers, the backup command only reads, asks and
    logs: it changes nothing in the cluster; it loads the kube config of
    the current context, checks the installation in the namespace of the
    command, hands the skip list of the command to the collector, and
    every file it writes is the file of the command, written with mode
    0644. *)
Theorem backup_only_reads_and_writes_its_file :
  forall (Replace : string -> string) (Sprintf : string -> string -> string)
         (E : Env) (w : World E) (cmd : BackupCmd),
    let out := run E (RunE Replace Sprintf cmd) w in
    forallb (fun ev => backupCall cmd (callOf ev)) (trace out) = true /\
    existsb (fun ev => changesCluster (callOf ev)) (trace out) = false.
Proof.
  intros Replace Sprintf E w cmd out. subst out.
  assert (H : callsOnly (backupCall cmd) (RunE Replace Sprintf cmd)).
  { unfold RunE, BackupCmd_run. calls_only;
      try (apply forEach_calls; intro; split; [reflexivity | intro; exact I]);
      try (now rewrite String.eqb_refl);
      now destruct (list_eq_dec string_dec (Skip cmd) (Skip cmd)). }
  pose proof (callsOnly_run E (backupCall cmd) _ w H) as Ht.
  split; [exact Ht |].
  apply existsb_none. apply forallb_weaken with (2 := Ht).
  intros [c r] Hc. now destruct c.
Qed.

Lemma writeBackup_done (E : Env) (cmd : BackupCmd) (objects : list Object)
    (w : World E) :
  let o := run E (writeBackup cmd objects) w in
  map callOf (filter (fun ev => isDone (callOf ev)) (trace o)) =
  match value o with
  | None => [Log DoneLevel ("Wrote backup to " ++ Filename cmd)]
  | Some _ => []
  end.
Proof.
  unfold writeBackup, perform. cbn [bind run].
  destruct (handle E (ToYAML objects) w) as [[err | backupBytes] w1];
    cbn [bind run value world trace]; [reflexivity |].
  destruct (handle E (Log InfoLevel _) w1) as [[] w2].
  cbn [bind run value world trace].
  destruct (handle E (WriteFile _ _ _) w2) as [[err |] w3];
    cbn [bind run value world trace]; [reflexivity |].
  now destruct (handle E (Log DoneLevel _) w3) as [[] w4].
Qed.

(** What a run of lines 109-134 leaves: no prompt and no install check,
    at most one file write, and the done line exactly when it returns
    nil. *)
Lemma collectAndWrite_result (E : Env) (cmd : BackupCmd)
    (kubeConfig : RestConfig) (w : World E) :
  let o := run E (collectAndWrite cmd kubeConfig) w in
  filterMap promptAnswer (trace o) = [] /\
  filterMap installedAnswer (trace o) = [] /\
  filter (fun ev => isPrompt (callOf ev)) (trace o) = [] /\
  map callOf (filter (fun ev => isDone (callOf ev)) (trace o)) =
    match value o with
    | None => [Log DoneLevel ("Wrote backup to " ++ Filename cmd)]
    | Some _ => []
    end /\
  match value o with
  | None =>
      exists backupBytes,
        filterMap fileWrite (trace o) =
        [(Filename cmd, backupBytes, mode_0644, None)]
  | Some err =>
      filterMap fileWrite (trace o) = [] \/
      exists backupBytes,
        filterMap fileWrite (trace o) =
        [(Filename cmd, backupBytes, mode_0644, Some err)]
  end.
Proof.
  intro o.
  pose proof (callsOnly_run E _ _ w (collectAndWrite_calls cmd kubeConfig)) as Hc.
  fold o in Hc.
  assert (Hq : forallb (fun ev => collectCall (callOf ev)) (trace o) = true).
  { apply forallb_weaken with (2 := Hc). intros ev H.
    apply andb_true_iff in H. apply H. }
  split; [| split; [| split]].
  - apply filterMap_none. apply forallb_weaken with (2 := Hq).
    intros [c r] H. now destruct c.
  - apply filterMap_none. apply forallb_weaken with (2 := Hq).
    intros [c r] H. now destruct c.
  - apply filter_none. apply forallb_weaken with (2 := Hq).
    intros [c r] H. now destruct c.
  - clear Hc Hq. subst o. unfold collectAndWrite, perform. cbn [bind run].
    destruct (handle E (NewRuntimeClient kubeConfig) w) as [[err | client] w1];
      cbn [bind run value world trace]; [split; [reflexivity | now left] |].
    destruct (handle E (BackupAll client (Skip cmd)) w1)
      as [[[objects errors] progress] w2].
    cbn [value world trace filter callOf isDone filterMap fileWrite].
    rewrite run_bind. cbv beta zeta. rewrite run_bind. cbv beta zeta.
    cbn [value world trace].
    pose proof (run_forEach_log E InfoLevel (fun msg : string => msg) progress)
      as Hp. unfold perform in Hp. cbv beta in Hp.
    pose proof (run_forEach_log E WarnLevel Error errors) as He.
    unfold perform in He.
    rewrite Hp, He. clear Hp He.
    match goal with
    | |- context [run E (writeBackup cmd objects) ?w3] =>
        pose proof (writeBackup_done E cmd objects w3) as Hd;
        destruct (writeBackup_shape E cmd objects w3) as [_ [_ [r [_ Hr]]]]
    end.
    cbv zeta in Hd.
    destruct (log_lines InfoLevel (fun msg : string => msg) progress) as [Hl1 _].
    destruct (log_lines WarnLevel Error errors) as [Hl2 _].
    destruct (logs_backup _ Hl1) as [_ [_ Hf1]].
    destruct (logs_backup _ Hl2) as [_ [_ Hf2]].
    rewrite !filterMap_app, Hf1, Hf2, !filter_app. cbn [app].
    assert (Hn : forall (lvl : level) {T} (text : T -> string) (xs : list T),
               lvl <> DoneLevel ->
               filter (fun ev => isDone (callOf ev))
                 (map (fun x => Ev (Log lvl (text x)) tt) xs) = []).
    { intros lvl T text xs Hlvl. induction xs as [|x xs IH]; [reflexivity |].
      cbn [map filter callOf]. rewrite IH. now destruct lvl. }
    rewrite !Hn by discriminate. cbn [app]. split; [exact Hd |].
    destruct r as [err | backupBytes].
    + destruct Hr as [-> Hw]. now left.
    + rewrite Hr. destruct (value _); [right |]; now exists backupBytes.
Qed.

(** X15: the backup command returns nil in two cases only: the file of
    the command was written without error, or the platform was not found
    and the operator answered the prompt, without error, with something
    other than "Yes" and nothing was written.  The done line "Wrote backup
    to <file>" is written exactly when the command returns nil after a
    write. *)
Theorem backup_nil_means_written_or_declined :
  forall (Replace : string -> string) (Sprintf : string -> string -> string)
         (E : Env) (w : World E) (cmd : BackupCmd),
    let out := run E (BackupCmd_run Replace Sprintf cmd) w in
    (value out = None <->
     (exists backupBytes,
        filterMap fileWrite (trace out) =
        [(Filename cmd, backupBytes, mode_0644, None)]) \/
     (filterMap fileWrite (trace out) = [] /\
      exists answer, filterMap promptAnswer (trace out) = [inr answer] /\
                     answer <> "Yes")) /\
    map callOf (filter (fun ev => isDone (callOf ev)) (trace out)) =
      match value out, filterMap fileWrite (trace out) with
      | None, _ :: _ => [Log DoneLevel ("Wrote backup to " ++ Filename cmd)]
      | _, _ => []
      end.
Proof.
  intros Replace Sprintf E w cmd out. subst out.
  assert (Hcollect :
    forall (kubeConfig : RestConfig) (w' : World E),
      let o := run E (collectAndWrite cmd kubeConfig) w' in
      (value o = None <->
       exists backupBytes,
         filterMap fileWrite (trace o) =
         [(Filename cmd, backupBytes, mode_0644, None)]) /\
      map callOf (filter (fun ev => isDone (callOf ev)) (trace o)) =
        match value o, filterMap fileWrite (trace o) with
        | None, _ :: _ => [Log DoneLevel ("Wrote backup to " ++ Filename cmd)]
        | _, _ => []
        end /\
      filterMap promptAnswer (trace o) = []).
  { intros kubeConfig w' o.
    destruct (collectAndWrite_result E cmd kubeConfig w')
      as [Hp [_ [_ [Hd Hv]]]].
    fold o in Hp, Hd, Hv. rewrite Hd.
    destruct (value o) as [err |].
    - repeat split; try discriminate; try assumption.
      intros [backupBytes Hw]. destruct Hv as [Hv | [b Hv]];
        rewrite Hv in Hw; discriminate Hw.
    - destruct Hv as [backupBytes Hv]. rewrite Hv.
      repeat split; try assumption. intros _. now exists backupBytes. }
  unfold BackupCmd_run, perform. cbn [bind run].
  destruct (handle E (HostClientConfig "") w) as [[err | kubeConfig] w1];
    cbn [bind run value world trace].
  { split; [split; [discriminate |] | reflexivity].
    intros [[b H] | [_ [a [H _]]]]; discriminate H. }
  destruct (handle E (NewForConfig kubeConfig) w1) as [[err | kubeClient] w2];
    cbn [bind run value world trace].
  { split; [split; [discriminate |] | reflexivity].
    intros [[b H] | [_ [a [H _]]]]; discriminate H. }
  destruct (handle E (IsLoftAlreadyInstalled kubeClient (Namespace cmd)) w2)
    as [[err | isInstalled] w3];
    cbn [bind run value world trace].
  { split; [split; [discriminate |] | reflexivity].
    intros [[b H] | [_ [a [H _]]]]; discriminate H. }
  destruct isInstalled; cbn [negb bind run value world trace].
  - cbn [filterMap fileWrite promptAnswer filter callOf isDone].
    destruct (Hcollect kubeConfig w3) as [Hiff [Hd Hp]].
    split; [| exact Hd]. rewrite Hiff, Hp. split; [now left |].
    intros [H | [_ [a [H _]]]]; [exact H | discriminate H].
  - destruct (handle E (AskQuestion _) w3) as [[err | answer] w4];
      cbn [bind run value world trace].
    { split; [split; [discriminate |] | reflexivity].
      intros [[b H] | [_ [a [H _]]]]; discriminate H. }
    destruct (String.eqb answer "Yes") eqn:Hyes;
      cbn [negb run value world trace].
    + cbn [filterMap fileWrite promptAnswer filter callOf isDone].
      destruct (Hcollect kubeConfig w4) as [Hiff [Hd Hp]].
      split; [| exact Hd]. rewrite Hiff, Hp. split; [now left |].
      intros [H | [Hw [a [[= <-] Ha]]]]; [exact H |].
      apply String.eqb_eq in Hyes. contradiction.
    + split; [| reflexivity]. split; [| reflexivity]. intros _. right.
      split; [reflexivity |]. exists answer. split; [reflexivity |].
      now apply String.eqb_neq.
Qed.

(** X16: the backup command asks the operator at most once, with the
    question of the command, and exactly when the install check answered
    that the platform is not installed; and it collects only after the
    install check found the platform or the operator answered "Yes". *)
Theorem prompt_guards_collection :
  forall (Replace : string -> string) (Sprintf : string -> string -> string)
         (E : Env) (w : World E) (cmd : BackupCmd),
    let out := run E (BackupCmd_run Replace Sprintf cmd) w in
    map callOf (filter (fun ev => isPrompt (callOf ev)) (trace out)) =
      match filterMap installedAnswer (trace out) with
      | [inr false] => [AskQuestion (continueQuestion Replace Sprintf cmd)]
      | _ => []
      end /\
    match filterMap collectAnswer (trace out) with
    | [] => True
    | _ :: _ =>
        filterMap installedAnswer (trace out) = [inr true] \/
        (filterMap installedAnswer (trace out) = [inr false] /\
         filterMap promptAnswer (trace out) = [inr "Yes"])
    end.
Proof.
  intros Replace Sprintf E w cmd out. subst out.
  unfold BackupCmd_run, perform. cbn [bind run].
  destruct (handle E (HostClientConfig "") w) as [[err | kubeConfig] w1];
    cbn [bind run value world trace]; [now split |].
  destruct (handle E (NewForConfig kubeConfig) w1) as [[err | kubeClient] w2];
    cbn [bind run value world trace]; [now split |].
  destruct (handle E (IsLoftAlreadyInstalled kubeClient (Namespace cmd)) w2)
    as [[err | isInstalled] w3];
    cbn [bind run value world trace]; [now split |].
  destruct isInstalled; cbn [negb bind run value world trace].
  - destruct (collectAndWrite_result E cmd kubeConfig w3)
      as [Hp [Hi [Hq _]]].
    cbn [filterMap installedAnswer promptAnswer collectAnswer filter callOf isPrompt].
    rewrite Hi, Hq. split; [reflexivity |].
    destruct (filterMap collectAnswer _); [exact I | now left].
  - destruct (handle E (AskQuestion _) w3) as [[err | answer] w4];
      cbn [bind run value world trace]; [now split |].
    destruct (String.eqb answer "Yes") eqn:Hyes;
      cbn [negb run value world trace]; [| now split].
    destruct (collectAndWrite_result E cmd kubeConfig w4)
      as [Hp [Hi [Hq _]]].
    cbn [filterMap installedAnswer promptAnswer collectAnswer filter callOf
         isPrompt map].
    rewrite Hi, Hq, Hp. split; [reflexivity |].
    destruct (filterMap collectAnswer _); [exact I | right].
    apply String.eqb_eq in Hyes. now subst answer.
Qed.


